(** * netatmo-exporter: the refresh / cache / serve core of the collector

    A shallow embedding of [internal/collector/collector.go] and the
    properties of its scrape ([Collect]), refresh ([RefreshData]) and
    per-leaf emitter ([collectData]).

    Conventions of the embedding:
    - Go's [int32]/[int64] values are integers in [Z]; a [time.Duration] is
      its [int64] count of nanoseconds;
    - a [time.Time] is the instant it denotes, counted in nanoseconds from
      January 1, year 1, 00:00:00 UTC (the zero value of the type); location
      and monotonic reading are not part of the instant;
    - a [float64] is a [spec_float] of the binary64 format, conversions
      from integers round to nearest even as Go's do;
    - nilable pointers ([*int32], [*DeviceCollection], [error]) are options;
    - the impure collaborators (the clock, the fetch function, the logger
      and the metric channel) live in a [World] threaded by a state monad. *)

From Stdlib Require Import ZArith List String Ascii Bool Lia.
From Stdlib Require Import Floats.SpecFloat.
Import ListNotations.
Local Open Scope string_scope.
Local Open Scope Z_scope.

(** ** Machine integers and durations *)

Definition minInt64 : Z := - 2 ^ 63.
Definition maxInt64 : Z := 2 ^ 63 - 1.

Definition int64_range (z : Z) : Prop := minInt64 <= z <= maxInt64.

(** Two's complement wrap-around of [int64] arithmetic. *)
Definition wrap64 (z : Z) : Z := (z + 2 ^ 63) mod 2 ^ 64 - 2 ^ 63.

Definition Duration := Z.

Definition Nanosecond : Duration := 1.
Definition Second : Duration := 1000000000.
Definition minDuration : Duration := minInt64.
Definition maxDuration : Duration := maxInt64.

(** ** float64 *)

Definition float64 := spec_float.
Definition float32 := spec_float.

Definition prec64 : Z := 53.
Definition emax64 : Z := 1024.

(** [float64(z)] for an integer [z]. *)
Definition float64_of_Z (z : Z) : float64 := binary_normalize prec64 emax64 z 0 false.

(** [float64(x)] for a [float32] [x]: every binary32 value is a binary64 value. *)
Definition float64_of_float32 (x : float32) : float64 := x.

Definition f64_zero : float64 := S754_zero false.
Definition f64_one : float64 := Eval cbv in float64_of_Z 1.

(** [Duration.Seconds]: integer division and remainder truncate toward zero. *)
Definition Seconds (d : Duration) : float64 :=
  let sec := Z.quot d Second in
  let nsec := Z.rem d Second in
  SFadd prec64 emax64 (float64_of_Z sec)
        (SFdiv prec64 emax64 (float64_of_Z nsec) (float64_of_Z 1000000000)).

(** ** time.Time *)

Definition Time := Z.

Definition zeroTime : Time := 0.

(** Seconds between year 1 and 1970 ([unixToInternal] of package time). *)
Definition unixToInternal : Z := (1969 * 365 + 1969 / 4 - 1969 / 100 + 1969 / 400) * 86400.
Definition internalToUnix : Z := - unixToInternal.

Definition IsZero (t : Time) : bool := t =? 0.

(** [time.Unix(sec, 0)]. *)
Definition time_Unix (sec : Z) : Time := wrap64 (sec + unixToInternal) * Second.

(** [t.Unix()]: whole seconds since 1970. *)
Definition Unix (t : Time) : Z := wrap64 (t / Second + internalToUnix).

(** [t.Sub(u)]: the difference, saturated to the range of a [Duration]. *)
Definition Sub (t u : Time) : Duration :=
  let d := t - u in
  if d <? minDuration then minDuration
  else if maxDuration <? d then maxDuration
  else d.

(** [!t.After(u)]. *)
Definition time_le (t u : Time) : Prop := t <= u.

Definition convertTime (t : Time) : float64 :=
  if IsZero t then f64_zero else float64_of_Z (Unix t).

(** ** utf8.ValidString, the check prometheus applies to label values *)

Definition in_range (lo hi b : N) : bool := (lo <=? b)%N && (b <=? hi)%N.
Definition cont (b : N) : bool := in_range 128 191 b.

Fixpoint utf8_valid_bytes (l : list N) : bool :=
  match l with
  | [] => true
  | b0 :: r0 =>
    if (b0 <? 128)%N then utf8_valid_bytes r0
    else if in_range 194 223 b0 then
      match r0 with
      | b1 :: r1 => cont b1 && utf8_valid_bytes r1
      | _ => false
      end
    else if in_range 224 239 b0 then
      match r0 with
      | b1 :: b2 :: r2 =>
        (if (b0 =? 224)%N then in_range 160 191 b1
         else if (b0 =? 237)%N then in_range 128 159 b1
         else cont b1)
        && cont b2 && utf8_valid_bytes r2
      | _ => false
      end
    else if in_range 240 244 b0 then
      match r0 with
      | b1 :: b2 :: b3 :: r3 =>
        (if (b0 =? 240)%N then in_range 144 191 b1
         else if (b0 =? 244)%N then in_range 128 143 b1
         else cont b1)
        && cont b2 && cont b3 && utf8_valid_bytes r3
      | _ => false
      end
    else false
  end.

Definition ValidString (s : string) : bool :=
  utf8_valid_bytes (map N_of_ascii (list_ascii_of_string s)).

(** ** The data model of the netatmo client library

    The fields the collector reads, with the library's types: [*int32] and
    [*int64] fields are optional integers, [*float32] fields optional
    floats. The [DashboardData] field of a device is named [Dashboard]
    here, the type keeping the name. Devices and modules of a collection are
    taken to be non-nil. *)

Definition error := string.

Record DashboardData := mkDashboardData {
  Temperature : option float32;
  Humidity : option Z;
  CO2 : option Z;
  Noise : option Z;
  Pressure : option float32;
  AbsolutePressure : option float32;
  Rain : option float32;
  WindAngle : option Z;
  WindStrength : option Z;
  HealthIdx : option Z;
  LastMeasure : option Z
}.

#[warnings="-register-all"]
Inductive Device := mkDevice {
  ID : string;
  StationName : string;
  ModuleName : string;
  BatteryPercent : option Z;
  WifiStatus : option Z;
  RFStatus : option Z;
  Dashboard : DashboardData;
  LinkedModules : list Device
}.

Record DeviceCollection := mkDeviceCollection {
  Devices : list Device
}.

(** ** Metric descriptors and metrics *)

Record Desc := NewDesc {
  fqName : string;
  help : string;
  variableLabels : list string
}.

Record Metric := mkMetric {
  desc : Desc;
  value : float64;
  labelValues : list string
}.

Definition prefix := "netatmo_".
Definition netatmoUpDesc :=
  NewDesc (prefix ++ "up") "Zero if there was an error during the last refresh try." [].
Definition refreshIntervalDesc :=
  NewDesc (prefix ++ "refresh_interval_seconds")
    "Contains the configured refresh interval in seconds. This is provided as a convenience for calculations with the cache update time." [].
Definition refreshPrefix := prefix ++ "last_refresh_".
Definition refreshTimestampDesc :=
  NewDesc (refreshPrefix ++ "time") "Contains the time of the last refresh try, successful or not." [].
Definition refreshDurationDesc :=
  NewDesc (refreshPrefix ++ "duration_seconds")
    "Contains the time it took for the last refresh to complete, even if it was unsuccessful." [].
Definition cacheTimestampDesc :=
  NewDesc (prefix ++ "cache_updated_time") "Contains the time of the cached data." [].

Definition varLabels := ["module"; "station"].
Definition sensorPrefix := prefix ++ "aircare_".

Definition updatedDesc :=
  NewDesc (sensorPrefix ++ "updated") "Timestamp of last update" varLabels.
Definition tempDesc :=
  NewDesc (sensorPrefix ++ "temperature_celsius") "Temperature measurement in celsius" varLabels.
Definition humidityDesc :=
  NewDesc (sensorPrefix ++ "humidity_percent") "Relative humidity measurement in percent" varLabels.
Definition cotwoDesc :=
  NewDesc (sensorPrefix ++ "co2_ppm") "Carbondioxide measurement in parts per million" varLabels.
Definition noiseDesc :=
  NewDesc (sensorPrefix ++ "noise_db") "Noise measurement in decibels" varLabels.
Definition pressureDesc :=
  NewDesc (sensorPrefix ++ "pressure_mb") "Atmospheric pressure measurement in millibar" varLabels.
Definition windStrengthDesc :=
  NewDesc (sensorPrefix ++ "wind_strength_kph") "Wind strength in kilometers per hour" varLabels.
Definition windDirectionDesc :=
  NewDesc (sensorPrefix ++ "wind_direction_degrees") "Wind direction in degrees" varLabels.
Definition rainDesc :=
  NewDesc (sensorPrefix ++ "rain_amount_mm") "Rain amount in millimeters" varLabels.
Definition batteryDesc :=
  NewDesc (sensorPrefix ++ "battery_percent") "Battery remaining life (10: low)" varLabels.
Definition wifiDesc :=
  NewDesc (sensorPrefix ++ "wifi_signal_strength") "Wifi signal strength (86: bad, 71: avg, 56: good)" varLabels.
Definition rfDesc :=
  NewDesc (sensorPrefix ++ "rf_signal_strength") "RF signal strength (90: lowest, 60: highest)" varLabels.
Definition absolutePressureDesc :=
  NewDesc (sensorPrefix ++ "absolute_pressure") "Absolute pressure" varLabels.
Definition lastMeasureUtcDesc :=
  NewDesc (sensorPrefix ++ "last_measure_utc") "Measurement time UTC" varLabels.
Definition healthIndexDesc :=
  NewDesc (sensorPrefix ++ "health_index")
    "Health index: 0 = Healthy,1 = Fine,2 = Fair,3 = Poor,4 = Unhealthy" varLabels.

(** The descriptors in the order [Describe] sends them. *)
Definition Describe : list Desc :=
  [ netatmoUpDesc; refreshIntervalDesc; refreshTimestampDesc; refreshDurationDesc;
    cacheTimestampDesc; updatedDesc; tempDesc; humidityDesc; cotwoDesc; noiseDesc;
    pressureDesc; windStrengthDesc; windDirectionDesc; rainDesc; batteryDesc;
    wifiDesc; rfDesc; absolutePressureDesc; lastMeasureUtcDesc; healthIndexDesc ].

(** [prometheus.NewConstMetric] for a descriptor built without error: it
    refuses a wrong number of label values and a label value that is not
    valid UTF-8. *)
Definition NewConstMetric (d : Desc) (v : float64) (labels : list string) : option Metric :=
  if (List.length labels =? List.length (variableLabels d))%nat && forallb ValidString labels
  then Some (mkMetric d v labels)
  else None.

(** ** The world around the collector and the monad that threads it *)

Inductive LogMsg :=
| RefreshingData (sinceLast : Duration)
| ErrorDuringRefresh (err : error)
| NoDataAvailable
| DataIsStale (moduleName : string) (dataAge threshold : Duration)
| ErrorCreatingMetric (d : Desc).

Inductive LogEntry :=
| Debugf (msg : LogMsg)
| Errorf (msg : LogMsg).

(** [ticks] counts the readings of the clock so far. [fetchCalls] is the
    history of the calls of the fetch function, oldest first; as a ghost
    value each entry holds the last-attempt time the collector had stored
    when the call was made. [logged] is what the logger received and
    [mChan] what was sent on the metric channel, both oldest first. *)
Record World := mkWorld {
  ticks : nat;
  fetchCalls : list Time;
  logged : list LogEntry;
  mChan : list Metric
}.

(** The number of calls of the fetch function so far. *)
Definition reads (w : World) : nat := List.length (fetchCalls w).

Definition M (A : Type) : Type := World -> A * World.

Definition ret {A} (a : A) : M A := fun w => (a, w).
Definition bind {A B} (m : M A) (k : A -> M B) : M B :=
  fun w => let (a, w') := m w in k a w'.

Declare Scope go_scope.
Delimit Scope go_scope with go.
Notation "x <- m ;; k" := (bind m (fun x => k))
  (at level 61, m at next level, right associativity) : go_scope.
Notation "m ;; k" := (bind m (fun _ => k))
  (at level 61, right associativity) : go_scope.
Local Open Scope go_scope.

Definition log (e : LogEntry) : M unit :=
  fun w => (tt, mkWorld (ticks w) (fetchCalls w) (logged w ++ [e]) (mChan w)).

Definition send (m : Metric) : M unit :=
  fun w => (tt, mkWorld (ticks w) (fetchCalls w) (logged w) (mChan w ++ [m])).

(** A Go [for _, x := range l] loop. *)
Fixpoint forRange {A} (l : list A) (body : A -> M unit) : M unit :=
  match l with
  | [] => ret tt
  | x :: rest => body x ;; forRange rest body
  end.

(** ** The collector *)

Definition FetchResult : Type := option DeviceCollection * option error.

(** [clock] and [ReadFunction] give the result of their n-th call. *)
Record NetatmoCollector := mkCollector {
  RefreshInterval : Duration;
  StaleThreshold : Duration;
  ReadFunction : nat -> FetchResult;
  clock : nat -> Time;
  lastRefresh : Time;
  lastRefreshError : option error;
  lastRefreshDuration : Duration;
  cacheTimestamp : Time;
  cachedData : option DeviceCollection
}.

Definition New (readFunction : nat -> FetchResult) (refreshInterval staleDuration : Duration)
    (time_Now : nat -> Time) : NetatmoCollector :=
  mkCollector refreshInterval staleDuration readFunction time_Now
    zeroTime None 0 zeroTime None.

Definition set_lastRefresh (t : Time) (c : NetatmoCollector) :=
  mkCollector (RefreshInterval c) (StaleThreshold c) (ReadFunction c) (clock c)
    t (lastRefreshError c) (lastRefreshDuration c) (cacheTimestamp c) (cachedData c).
Definition set_lastRefreshError (e : option error) (c : NetatmoCollector) :=
  mkCollector (RefreshInterval c) (StaleThreshold c) (ReadFunction c) (clock c)
    (lastRefresh c) e (lastRefreshDuration c) (cacheTimestamp c) (cachedData c).
Definition set_lastRefreshDuration (d : Duration) (c : NetatmoCollector) :=
  mkCollector (RefreshInterval c) (StaleThreshold c) (ReadFunction c) (clock c)
    (lastRefresh c) (lastRefreshError c) d (cacheTimestamp c) (cachedData c).
Definition set_cacheTimestamp (t : Time) (c : NetatmoCollector) :=
  mkCollector (RefreshInterval c) (StaleThreshold c) (ReadFunction c) (clock c)
    (lastRefresh c) (lastRefreshError c) (lastRefreshDuration c) t (cachedData c).
Definition set_cachedData (d : option DeviceCollection) (c : NetatmoCollector) :=
  mkCollector (RefreshInterval c) (StaleThreshold c) (ReadFunction c) (clock c)
    (lastRefresh c) (lastRefreshError c) (lastRefreshDuration c) (cacheTimestamp c) d.

(** [c.clock()] *)
Definition now_ (c : NetatmoCollector) : M Time :=
  fun w => (clock c (ticks w), mkWorld (S (ticks w)) (fetchCalls w) (logged w) (mChan w)).

(** [c.ReadFunction()] *)
Definition fetch (c : NetatmoCollector) : M FetchResult :=
  fun w => (ReadFunction c (reads w),
            mkWorld (ticks w) (fetchCalls w ++ [lastRefresh c]) (logged w) (mChan w)).

Definition sendMetric (d : Desc) (v : float64) (labels : list string) : M unit :=
  match NewConstMetric d v labels with
  | None => log (Errorf (ErrorCreatingMetric updatedDesc))
  | Some m => send m
  end.

(** [p != nil] *)
Definition notNil {A} (p : option A) : bool :=
  match p with
  | Some _ => true
  | None => false
  end.

(** [if p != nil { body( *p ) }] *)
Definition ifPresent {A} (p : option A) (body : A -> M unit) : M unit :=
  match p with
  | Some x => body x
  | None => ret tt
  end.

Definition moduleName_of (device : Device) : string :=
  if String.eqb (ModuleName device) "" then "id-" ++ ID device else ModuleName device.

Definition collectData (c : NetatmoCollector) (device : Device) (stationName : string) : M unit :=
  let moduleName := moduleName_of device in
  let data := Dashboard device in
  match LastMeasure data with
  | None => log (Debugf NoDataAvailable)
  | Some lastMeasure =>
    let date := time_Unix lastMeasure in
    t <- now_ c ;;
    let dataAge := Sub t date in
    if StaleThreshold c <? dataAge then
      log (Debugf (DataIsStale moduleName dataAge (StaleThreshold c)))
    else
      sendMetric updatedDesc (float64_of_Z (Unix date)) [moduleName; stationName] ;;
      ifPresent (Temperature data) (fun x =>
        sendMetric tempDesc (float64_of_float32 x) [moduleName; stationName]) ;;
      ifPresent (Humidity data) (fun x =>
        sendMetric humidityDesc (float64_of_Z x) [moduleName; stationName]) ;;
      ifPresent (CO2 data) (fun x =>
        sendMetric cotwoDesc (float64_of_Z x) [moduleName; stationName]) ;;
      ifPresent (Noise data) (fun x =>
        sendMetric noiseDesc (float64_of_Z x) [moduleName; stationName]) ;;
      ifPresent (Pressure data) (fun x =>
        sendMetric pressureDesc (float64_of_float32 x) [moduleName; stationName]) ;;
      ifPresent (WindStrength data) (fun x =>
        sendMetric windStrengthDesc (float64_of_Z x) [moduleName; stationName]) ;;
      ifPresent (WindAngle data) (fun x =>
        sendMetric windDirectionDesc (float64_of_Z x) [moduleName; stationName]) ;;
      ifPresent (Rain data) (fun x =>
        sendMetric rainDesc (float64_of_float32 x) [moduleName; stationName]) ;;
      ifPresent (BatteryPercent device) (fun x =>
        sendMetric batteryDesc (float64_of_Z x) [moduleName; stationName]) ;;
      ifPresent (WifiStatus device) (fun x =>
        sendMetric wifiDesc (float64_of_Z x) [moduleName; stationName]) ;;
      ifPresent (RFStatus device) (fun x =>
        sendMetric rfDesc (float64_of_Z x) [moduleName; stationName]) ;;
      ifPresent (HealthIdx data) (fun x =>
        sendMetric healthIndexDesc (float64_of_Z x) [moduleName; stationName]) ;;
      ifPresent (AbsolutePressure data) (fun x =>
        sendMetric absolutePressureDesc (float64_of_float32 x) [moduleName; stationName]) ;;
      ifPresent (LastMeasure data) (fun x =>
        sendMetric lastMeasureUtcDesc (float64_of_Z x) [moduleName; stationName])
  end.

(** [RefreshData]: the duration is stored by the deferred function, which
    runs last on both return paths; its argument [start] is read from the
    clock when the [defer] statement executes. *)
Definition RefreshData (c : NetatmoCollector) (now : Time) : M NetatmoCollector :=
  log (Debugf (RefreshingData (Sub now (lastRefresh c)))) ;;
  let c := set_lastRefresh now c in
  start <- now_ c ;;
  let deferred (c : NetatmoCollector) : M NetatmoCollector :=
    finish <- now_ c ;;
    ret (set_lastRefreshDuration (Sub finish start) c) in
  r <- fetch c ;;
  let (devices, err) := r in
  let c := set_lastRefreshError err c in
  match err with
  | Some e =>
    log (Errorf (ErrorDuringRefresh e)) ;;
    deferred c
  | None =>
    let c := set_cacheTimestamp now c in
    let c := set_cachedData devices c in
    deferred c
  end.

(** [Collect]: the result is the argument of the refresh goroutine the
    scrape started, if it started one; the goroutine itself runs apart from
    the scrape, which serves the state as it is. *)
Definition Collect (c : NetatmoCollector) : M (option Time) :=
  now <- now_ c ;;
  let spawned := if RefreshInterval c <=? Sub now (lastRefresh c) then Some now else None in
  let upValue :=
    if IsZero (lastRefresh c) || notNil (lastRefreshError c)
    then f64_zero else f64_one in
  sendMetric netatmoUpDesc upValue [] ;;
  sendMetric refreshIntervalDesc (Seconds (RefreshInterval c)) [] ;;
  sendMetric refreshTimestampDesc (convertTime (lastRefresh c)) [] ;;
  sendMetric refreshDurationDesc (Seconds (lastRefreshDuration c)) [] ;;
  sendMetric cacheTimestampDesc (convertTime (cacheTimestamp c)) [] ;;
  ifPresent (cachedData c) (fun data =>
    forRange (Devices data) (fun dev =>
      let stationName := StationName dev in
      collectData c dev stationName ;;
      forRange (LinkedModules dev) (fun module =>
        collectData c module stationName))) ;;
  ret spawned.

(** ** Runs, histories and the metrics of a leaf, for the statements below *)

(** A sequence of completed refresh executions, one per attempt time. *)
Fixpoint refreshes (c : NetatmoCollector) (nows : list Time) : M NetatmoCollector :=
  match nows with
  | [] => ret c
  | now :: rest => c' <- RefreshData c now ;; refreshes c' rest
  end.

(** The errors returned by [n] consecutive calls of a fetch function,
    starting with call number [first]. *)
Fixpoint fetchErrors (readFunction : nat -> FetchResult) (first n : nat) : list (option error) :=
  match n with
  | O => []
  | S n' => snd (readFunction first) :: fetchErrors readFunction (S first) n'
  end.

Definition isNil {A} (p : option A) : bool := negb (notNil p).

(** Attempt times that never go back, the first one not before [t0]. *)
Fixpoint nondecreasing (t0 : Time) (nows : list Time) : Prop :=
  match nows with
  | [] => True
  | now :: rest => time_le t0 now /\ nondecreasing now rest
  end.

(** [emit ms w]: the world [w] after [ms] went out on the metric channel. *)
Definition emit (ms : list Metric) (w : World) : World :=
  mkWorld (ticks w) (fetchCalls w) (logged w) (mChan w ++ ms).

Definition tick (w : World) : World :=
  mkWorld (S (ticks w)) (fetchCalls w) (logged w) (mChan w).

(** The metric an optional field contributes. *)
Definition optMetric {A} (p : option A) (mk : A -> Metric) : list Metric :=
  match p with
  | Some x => [mk x]
  | None => []
  end.

(** The metrics a leaf within the stale threshold puts on the channel when
    none is refused, in the order [collectData] sends them. *)
Definition freshLeafMetrics (device : Device) (stationName : string) (lastMeasure : Z)
    : list Metric :=
  let moduleName := moduleName_of device in
  let data := Dashboard device in
  let labels := [moduleName; stationName] in
  mkMetric updatedDesc (float64_of_Z (Unix (time_Unix lastMeasure))) labels ::
  optMetric (Temperature data) (fun x => mkMetric tempDesc (float64_of_float32 x) labels) ++
  optMetric (Humidity data) (fun x => mkMetric humidityDesc (float64_of_Z x) labels) ++
  optMetric (CO2 data) (fun x => mkMetric cotwoDesc (float64_of_Z x) labels) ++
  optMetric (Noise data) (fun x => mkMetric noiseDesc (float64_of_Z x) labels) ++
  optMetric (Pressure data) (fun x => mkMetric pressureDesc (float64_of_float32 x) labels) ++
  optMetric (WindStrength data) (fun x => mkMetric windStrengthDesc (float64_of_Z x) labels) ++
  optMetric (WindAngle data) (fun x => mkMetric windDirectionDesc (float64_of_Z x) labels) ++
  optMetric (Rain data) (fun x => mkMetric rainDesc (float64_of_float32 x) labels) ++
  optMetric (BatteryPercent device) (fun x => mkMetric batteryDesc (float64_of_Z x) labels) ++
  optMetric (WifiStatus device) (fun x => mkMetric wifiDesc (float64_of_Z x) labels) ++
  optMetric (RFStatus device) (fun x => mkMetric rfDesc (float64_of_Z x) labels) ++
  optMetric (HealthIdx data) (fun x => mkMetric healthIndexDesc (float64_of_Z x) labels) ++
  optMetric (AbsolutePressure data)
    (fun x => mkMetric absolutePressureDesc (float64_of_float32 x) labels) ++
  [mkMetric lastMeasureUtcDesc (float64_of_Z lastMeasure) labels].

(** The data age [collectData] computes for a leaf measured at [lastMeasure]
    when the clock reads [t]. *)
Definition dataAge (t : Time) (lastMeasure : Z) : Duration := Sub t (time_Unix lastMeasure).

(** The five self-health metrics a scrape always sends first. *)
Definition selfHealthMetrics (c : NetatmoCollector) : list Metric :=
  [ mkMetric netatmoUpDesc
      (if IsZero (lastRefresh c) || notNil (lastRefreshError c) then f64_zero else f64_one) [];
    mkMetric refreshIntervalDesc (Seconds (RefreshInterval c)) [];
    mkMetric refreshTimestampDesc (convertTime (lastRefresh c)) [];
    mkMetric refreshDurationDesc (Seconds (lastRefreshDuration c)) [];
    mkMetric cacheTimestampDesc (convertTime (cacheTimestamp c)) [] ].

(** [adds P m]: whatever the world, running [m] only appends to the metric
    channel, and every metric it appends satisfies [P]. *)
Definition adds {A} (P : Metric -> Prop) (m : M A) : Prop :=
  forall w, exists ms, mChan (snd (m w)) = (mChan w ++ ms)%list /\ Forall P ms.

(** [leafLabelled c m]: [m] is a per-sensor metric of some leaf of the
    cached snapshot, a main device or one of its linked modules, labelled
    with the leaf's module name and the main device's [StationName]. *)
Definition leafLabelled (c : NetatmoCollector) (m : Metric) : Prop :=
  exists data dev leaf,
    cachedData c = Some data /\
    In dev (Devices data) /\
    (leaf = dev \/ In leaf (LinkedModules dev)) /\
    variableLabels (desc m) = varLabels /\
    labelValues m = [moduleName_of leaf; StationName dev].

(** A device none of whose optional sensor and signal fields is set. *)
Definition noOptionalFields (device : Device) : Prop :=
  Temperature (Dashboard device) = None /\
  Humidity (Dashboard device) = None /\
  CO2 (Dashboard device) = None /\
  Noise (Dashboard device) = None /\
  Pressure (Dashboard device) = None /\
  AbsolutePressure (Dashboard device) = None /\
  WindStrength (Dashboard device) = None /\
  WindAngle (Dashboard device) = None /\
  Rain (Dashboard device) = None /\
  HealthIdx (Dashboard device) = None /\
  BatteryPercent device = None /\
  WifiStatus device = None /\
  RFStatus device = None.

(** The descriptors of per-sensor metrics: those declared with the
    [module] and [station] labels. *)
Definition perSensorDescs : list Desc :=
  filter (fun d => match variableLabels d with [] => false | _ => true end) Describe.

(** The metric names of the schema table in section 6 of the
    specification, to be compared with the names [Describe] declares. *)
Definition spec_schema : list string :=
  [ "netatmo_up"; "netatmo_refresh_interval_seconds"; "netatmo_last_refresh_time";
    "netatmo_last_refresh_duration_seconds"; "netatmo_cache_updated_time";
    "netatmo_aircare_updated"; "netatmo_aircare_temperature_celsius";
    "netatmo_aircare_humidity_percent"; "netatmo_aircare_co2_ppm";
    "netatmo_aircare_noise_db"; "netatmo_aircare_pressure_mb";
    "netatmo_aircare_absolute_pressure"; "netatmo_aircare_wind_strength_kph";
    "netatmo_aircare_wind_direction_degrees"; "netatmo_aircare_rain_amount_mm";
    "netatmo_aircare_battery_percent"; "netatmo_aircare_wifi_signal_strength";
    "netatmo_aircare_rf_signal_strength"; "netatmo_aircare_health_index" ].

(** ** Sample data: a station "Home" whose main unit "Indoor" reports
    temperature 21.5 and humidity 55, with one unnamed linked module that
    reports only its measurement time *)

Definition ex_lastMeasure : Z := 1700000000.

Definition ex_module : Device :=
  mkDevice "02:00:00:aa:bb:cc" "" "" None None None
    (mkDashboardData None None None None None None None None None None (Some ex_lastMeasure))
    [].

Definition ex_station : Device :=
  mkDevice "70:ee:50:aa:bb:cc" "Home" "Indoor" None None None
    (mkDashboardData (Some (S754_finite false 11272192 (-19))) (Some 55)
       None None None None None None None None (Some ex_lastMeasure))
    [ex_module].

Definition ex_collection : DeviceCollection := mkDeviceCollection [ex_station].

(** A clock that starts ten seconds after the sample measurement and
    advances by one second per reading. *)
Definition ex_clock (n : nat) : Time := time_Unix (ex_lastMeasure + 10 + Z.of_nat n).

Definition ex_read_ok (n : nat) : FetchResult := (Some ex_collection, None).
Definition ex_read_fail (n : nat) : FetchResult := (None, Some "connection refused").
(** Succeeds on the first call and fails afterwards. *)
Definition ex_read_once (n : nat) : FetchResult :=
  match n with
  | O => (Some ex_collection, None)
  | S _ => (None, Some "connection refused")
  end.

Definition ex_world : World := mkWorld 0 [] [] [].

Definition ex_interval : Duration := 60 * Second.
Definition ex_threshold : Duration := 300 * Second.

Definition ex_new : NetatmoCollector := New ex_read_ok ex_interval ex_threshold ex_clock.

(** The sample collector after one successful refresh. *)
Definition ex_cached : NetatmoCollector := fst (RefreshData ex_new (ex_clock 0) ex_world).

(** A collector that holds the sample snapshot and whose fetch function
    fails from now on. *)
Definition ex_failing : NetatmoCollector :=
  mkCollector ex_interval ex_threshold ex_read_fail ex_clock
    (lastRefresh ex_cached) None 0 (cacheTimestamp ex_cached) (cachedData ex_cached).

(** A sample leaf with every optional field set. *)
Definition ex_full : Device :=
  mkDevice "70:ee:50:dd:ee:ff" "Home" "Everything" (Some 80) (Some 56) (Some 60)
    (mkDashboardData (Some (S754_finite false 11272192 (-19))) (Some 55) (Some 420)
       (Some 38) (Some (S754_finite false 16600269 (-14)))
       (Some (S754_finite false 16384000 (-14))) (Some (S754_zero false))
       (Some 270) (Some 12) (Some 1) (Some ex_lastMeasure))
    [].

(** A clock that starts four hundred seconds after the sample measurement. *)
Definition ex_late_clock (n : nat) : Time := time_Unix (ex_lastMeasure + 400 + Z.of_nat n).

(** The sample collector after one successful refresh, read by the late clock. *)
Definition ex_late : NetatmoCollector :=
  fst (RefreshData (New ex_read_ok ex_interval ex_threshold ex_late_clock)
         (ex_late_clock 0) ex_world).

(** A leaf whose module name is the single byte 0xFF, which is not UTF-8. *)
Definition ex_misnamed : Device :=
  mkDevice "02:00:00:11:22:33" "" (String (ascii_of_nat 255) EmptyString) None None None
    (mkDashboardData None None None None None None None None None None (Some ex_lastMeasure))
    [].

(** ** Measures and relations for the further properties *)

(** The number of leaves of a snapshot: every main device and every one of
    its linked modules; none when there is no snapshot. *)
Definition leafCount (data : option DeviceCollection) : nat :=
  match data with
  | None => O
  | Some d => list_sum (map (fun dev => S (List.length (LinkedModules dev))) (Devices d))
  end.

(** [spends t n m]: whatever the world, running [m] calls the fetch function
    not at all, reads the clock at most [t] times and appends at most [n]
    metrics to the channel. *)
Definition spends {A} (t n : nat) (m : M A) : Prop :=
  forall w,
    fetchCalls (snd (m w)) = fetchCalls w /\
    (ticks w <= ticks (snd (m w)) <= ticks w + t)%nat /\
    exists ms, mChan (snd (m w)) = (mChan w ++ ms)%list /\ (List.length ms <= n)%nat.

(** [sameOutput m1 m2]: started with the same number of clock readings
    behind them, [m1] and [m2] return the same value, read the clock as
    often and append the same metrics. *)
Definition sameOutput {A} (m1 m2 : M A) : Prop :=
  forall w1 w2, ticks w1 = ticks w2 ->
    fst (m1 w1) = fst (m2 w2) /\
    ticks (snd (m1 w1)) = ticks (snd (m2 w2)) /\
    exists ms, mChan (snd (m1 w1)) = (mChan w1 ++ ms)%list /\
               mChan (snd (m2 w2)) = (mChan w2 ++ ms)%list.

(** The loop of [Collect] over the devices of a snapshot. *)
Definition collectLeaves (c : NetatmoCollector) (data : DeviceCollection) : M unit :=
  forRange (Devices data) (fun dev =>
    let stationName := StationName dev in
    collectData c dev stationName ;;
    forRange (LinkedModules dev) (fun module =>
      collectData c module stationName)).

Definition metricName (m : Metric) : string := fqName (desc m).

(** The per-sensor descriptors in the order [collectData] uses them. *)
Definition leafDescsInOrder : list Desc :=
  [ updatedDesc; tempDesc; humidityDesc; cotwoDesc; noiseDesc; pressureDesc;
    windStrengthDesc; windDirectionDesc; rainDesc; batteryDesc; wifiDesc; rfDesc;
    healthIndexDesc; absolutePressureDesc; lastMeasureUtcDesc ].

(** A metric as [NewConstMetric] accepts it: as many label values as its
    descriptor has labels, each of them valid UTF-8. *)
Definition wellFormed (m : Metric) : Prop :=
  List.length (labelValues m) = List.length (variableLabels (desc m)) /\
  forallb ValidString (labelValues m) = true.

(** A clock that reads the same instant twice and then jumps back a day. *)
Definition ex_jumpy_clock (n : nat) : Time :=
  match n with
  | O | S O => time_Unix (ex_lastMeasure + 10)
  | _ => time_Unix (ex_lastMeasure - 86400)
  end.

(** [complain k w]: the world [w] after [k] metrics were refused, each
    with the error entry [sendMetric] writes. *)
Definition complain (k : nat) (w : World) : World :=
  mkWorld (ticks w) (fetchCalls w)
    (logged w ++ repeat (Errorf (ErrorCreatingMetric updatedDesc)) k) (mChan w).

(** [distinctWithin L ms]: the metrics [ms] have pairwise distinct names,
    all of them among [L]. *)
Definition distinctWithin (L : list string) (ms : list Metric) : Prop :=
  incl (map metricName ms) L /\ NoDup (map metricName ms).

(** A module without the modules linked below it, and a snapshot cut to
    its main devices and their directly linked modules. *)
Definition flatModule (m : Device) : Device :=
  mkDevice (ID m) (StationName m) (ModuleName m) (BatteryPercent m) (WifiStatus m)
    (RFStatus m) (Dashboard m) [].

Definition twoLevels (data : DeviceCollection) : DeviceCollection :=
  mkDeviceCollection
    (map (fun dev =>
            mkDevice (ID dev) (StationName dev) (ModuleName dev) (BatteryPercent dev)
              (WifiStatus dev) (RFStatus dev) (Dashboard dev)
              (map flatModule (LinkedModules dev)))
         (Devices data)).

(** A sample station whose linked module has a module of its own. *)
Definition ex_nested : DeviceCollection :=
  mkDeviceCollection
    [ mkDevice "70:ee:50:aa:bb:cc" "Home" "Indoor" None None None (Dashboard ex_station)
        [ mkDevice "02:00:00:aa:bb:cc" "" "Outdoor" None None None (Dashboard ex_module)
            [ex_full] ] ].

(** ** A refresh under way, and the block of metrics of one leaf *)

(** [RefreshData] up to its call of the fetch function: the entry is
    logged, the attempt time stored and the start of the duration read from
    the clock. The collector it returns is the one a scrape reads while the
    fetch is under way, before any error or snapshot of this attempt is
    stored. *)
Definition refreshStarted (c : NetatmoCollector) (now : Time) : M NetatmoCollector :=
  log (Debugf (RefreshingData (Sub now (lastRefresh c)))) ;;
  let c := set_lastRefresh now c in
  _ <- now_ c ;;
  ret c.

(** [leafBlock leaf st block]: [block] is what one call of [collectData]
    for [leaf] with station name [st] may put on the channel: nothing, or
    the metrics of the leaf's own readings under its own labels. *)
Definition leafBlock (leaf : Device) (st : string) (block : list Metric) : Prop :=
  block = [] \/
  exists lm, LastMeasure (Dashboard leaf) = Some lm /\ block = freshLeafMetrics leaf st lm.

(** The blocks of a main device: its own block, then one for each of its
    linked modules, in order, all under the main device's [StationName]. *)
Definition deviceBlocks (dev : Device) (block : list Metric) : Prop :=
  exists own mods,
    block = (own ++ List.concat mods)%list /\
    leafBlock dev (StationName dev) own /\
    Forall2 (fun module b => leafBlock module (StationName dev) b) (LinkedModules dev) mods.

(** The age of a reading in exact arithmetic: the nanoseconds from the
    instant [lastMeasure] seconds after the Unix epoch to the instant [t]. *)
Definition exactAge (t : Time) (lastMeasure : Z) : Z :=
  t - (lastMeasure + unixToInternal) * Second.

(** A sample leaf whose measurement time is the greatest [int64]. *)
Definition ex_far : Device :=
  mkDevice "02:00:00:44:55:66" "" "Far" None None None
    (mkDashboardData None None None None None None None None None None (Some maxInt64))
    [].

(** ** Arithmetic of durations and instants *)

Local Open Scope list_scope.

Lemma Sub_range (t u : Time) : minDuration <= Sub t u <= maxDuration.
Proof.
  unfold Sub, minDuration, maxDuration, minInt64, maxInt64.
  destruct (Z.ltb_spec (t - u) (- 2 ^ 63)); [lia|].
  destruct (Z.ltb_spec (2 ^ 63 - 1) (t - u)); lia.
Qed.

Lemma Sub_exact (t u : Time) :
  minDuration <= t - u <= maxDuration -> Sub t u = t - u.
Proof.
  unfold Sub. intros [Hlo Hhi].
  destruct (Z.ltb_spec (t - u) minDuration); [lia|].
  destruct (Z.ltb_spec maxDuration (t - u)); [lia|reflexivity].
Qed.

Lemma Sub_ge_iff (t u : Time) (i : Duration) :
  minDuration < i <= maxDuration -> (i <= Sub t u <-> i <= t - u).
Proof.
  unfold Sub. intros [Hlo Hhi].
  destruct (Z.ltb_spec (t - u) minDuration); [lia|].
  destruct (Z.ltb_spec maxDuration (t - u)); lia.
Qed.

Lemma Sub_le_iff (t u : Time) (s : Duration) :
  minDuration <= s < maxDuration -> (Sub t u <= s <-> t - u <= s).
Proof.
  unfold Sub. intros [Hlo Hhi].
  destruct (Z.ltb_spec (t - u) minDuration); [lia|].
  destruct (Z.ltb_spec maxDuration (t - u)); lia.
Qed.

Lemma Sub_zeroTime_saturates (now : Time) :
  time_le (time_Unix 0) now -> Sub now zeroTime = maxDuration.
Proof.
  unfold time_le, Sub, zeroTime. intros H.
  assert (E : time_Unix 0 = 62135596800000000000) by reflexivity.
  rewrite E in H.
  destruct (Z.ltb_spec (now - 0) minDuration) as [H1|H1].
  - unfold minDuration, minInt64 in H1. lia.
  - destruct (Z.ltb_spec maxDuration (now - 0)) as [H2|H2]; [reflexivity|].
    unfold maxDuration, maxInt64 in H2. lia.
Qed.

Lemma wrap64_small (z : Z) : int64_range z -> wrap64 z = z.
Proof.
  unfold int64_range, minInt64, maxInt64, wrap64. intros H.
  rewrite Z.mod_small; lia.
Qed.

Lemma wrap64_add_wrap64 (a b : Z) : wrap64 (wrap64 a + b) = wrap64 (a + b).
Proof.
  unfold wrap64.
  replace ((a + 2 ^ 63) mod 2 ^ 64 - 2 ^ 63 + b + 2 ^ 63)
    with ((a + 2 ^ 63) mod 2 ^ 64 + b) by lia.
  rewrite Zplus_mod_idemp_l.
  replace (a + 2 ^ 63 + b) with (a + b + 2 ^ 63) by lia.
  reflexivity.
Qed.

(** [time.Unix(sec, 0).Unix() = sec] for every [int64] [sec]. *)
Lemma Unix_time_Unix (sec : Z) : int64_range sec -> Unix (time_Unix sec) = sec.
Proof.
  intros H. unfold Unix, time_Unix.
  rewrite Z.div_mul by (unfold Second; lia).
  rewrite wrap64_add_wrap64.
  unfold internalToUnix.
  replace (sec + unixToInternal + - unixToInternal) with sec by lia.
  apply wrap64_small. exact H.
Qed.

(** The "updated" gauge of a leaf carries its [lastMeasure]. *)
Lemma updated_value_is_lastMeasure (sec : Z) :
  int64_range sec -> float64_of_Z (Unix (time_Unix sec)) = float64_of_Z sec.
Proof. intros H. rewrite (Unix_time_Unix sec H). reflexivity. Qed.

Lemma convertTime_zero (t : Time) : IsZero t = true -> convertTime t = f64_zero.
Proof. unfold convertTime. intros ->. reflexivity. Qed.

Lemma time_le_trans (a b c : Time) : time_le a b -> time_le b c -> time_le a c.
Proof. unfold time_le. lia. Qed.

Lemma time_le_refl (a : Time) : time_le a a.
Proof. unfold time_le. lia. Qed.

(** ** Running the monad *)

Lemma bind_run {A B} (m : M A) (k : A -> M B) (w w' : World) (a : A) :
  m w = (a, w') -> bind m k w = k a w'.
Proof. unfold bind. intros ->. reflexivity. Qed.

Lemma fst_bind_const {A B} (m : M A) (k : M B) (b : B) :
  (forall w, fst (k w) = b) -> forall w, fst (bind m (fun _ => k) w) = b.
Proof. intros H w. unfold bind. destruct (m w) as [a w']. apply H. Qed.

Lemma emit_emit (ms1 ms2 : list Metric) (w : World) :
  emit ms2 (emit ms1 w) = emit (ms1 ++ ms2) w.
Proof. unfold emit. simpl. rewrite app_assoc. reflexivity. Qed.

Lemma emit_nil (w : World) : emit [] w = w.
Proof. unfold emit. rewrite app_nil_r. destruct w; reflexivity. Qed.

Lemma sendMetric_unlabelled (d : Desc) (v : float64) (w : World) :
  variableLabels d = [] -> sendMetric d v [] w = (tt, emit [mkMetric d v []] w).
Proof.
  intros H. unfold sendMetric, NewConstMetric. rewrite H. reflexivity.
Qed.

Lemma sendMetric_labelled (d : Desc) (v : float64) (m s : string) (w : World) :
  variableLabels d = varLabels -> ValidString m = true -> ValidString s = true ->
  sendMetric d v [m; s] w = (tt, emit [mkMetric d v [m; s]] w).
Proof.
  intros H Hm Hs. unfold sendMetric, NewConstMetric. rewrite H. simpl.
  rewrite Hm, Hs. reflexivity.
Qed.

Lemma ifPresent_send {A} (p : option A) (d : Desc) (conv : A -> float64)
    (m s : string) (w : World) :
  variableLabels d = varLabels -> ValidString m = true -> ValidString s = true ->
  ifPresent p (fun x => sendMetric d (conv x) [m; s]) w
  = (tt, emit (optMetric p (fun x => mkMetric d (conv x) [m; s])) w).
Proof.
  intros H Hm Hs. destruct p as [x|]; simpl.
  - apply sendMetric_labelled; assumption.
  - unfold ret. rewrite emit_nil. reflexivity.
Qed.

(** ** RefreshData, field by field *)

Lemma RefreshData_fields (c : NetatmoCollector) (now : Time) (w : World) :
  let c' := fst (RefreshData c now w) in
  let r := ReadFunction c (reads w) in
  lastRefresh c' = now /\
  lastRefreshError c' = snd r /\
  cacheTimestamp c' = (if notNil (snd r) then cacheTimestamp c else now) /\
  cachedData c' = (if notNil (snd r) then cachedData c else fst r) /\
  lastRefreshDuration c' = Sub (clock c (S (ticks w))) (clock c (ticks w)).
Proof.
  unfold RefreshData, bind, log, now_, fetch, ret, reads. simpl.
  destruct (ReadFunction c (List.length (fetchCalls w))) as [devices [e|]]; simpl;
    repeat split.
Qed.

Lemma RefreshData_frame (c : NetatmoCollector) (now : Time) (w : World) :
  let c' := fst (RefreshData c now w) in
  let w' := snd (RefreshData c now w) in
  RefreshInterval c' = RefreshInterval c /\
  StaleThreshold c' = StaleThreshold c /\
  ReadFunction c' = ReadFunction c /\
  clock c' = clock c /\
  reads w' = S (reads w) /\
  ticks w' = S (S (ticks w)) /\
  mChan w' = mChan w /\
  fetchCalls w' = fetchCalls w ++ [now].
Proof.
  unfold RefreshData, bind, log, now_, fetch, ret, reads. simpl.
  destruct (ReadFunction c (List.length (fetchCalls w))) as [devices [e|]]; simpl;
    repeat split; rewrite length_app; simpl; lia.
Qed.

(** ** collectData, case by case *)

Lemma collectData_no_data (c : NetatmoCollector) (device : Device) (st : string) (w : World) :
  LastMeasure (Dashboard device) = None ->
  collectData c device st w
  = (tt, mkWorld (ticks w) (fetchCalls w) (logged w ++ [Debugf NoDataAvailable]) (mChan w)).
Proof. unfold collectData. intros ->. reflexivity. Qed.

Lemma collectData_stale (c : NetatmoCollector) (device : Device) (st : string) (w : World)
    (lm : Z) :
  LastMeasure (Dashboard device) = Some lm ->
  StaleThreshold c < dataAge (clock c (ticks w)) lm ->
  collectData c device st w
  = (tt, mkWorld (S (ticks w)) (fetchCalls w)
           (logged w ++ [Debugf (DataIsStale (moduleName_of device)
                                   (dataAge (clock c (ticks w)) lm) (StaleThreshold c))])
           (mChan w)).
Proof.
  unfold collectData, dataAge. intros -> H.
  unfold bind at 1. unfold now_. cbv zeta.
  destruct (Z.ltb_spec (StaleThreshold c) (Sub (clock c (ticks w)) (time_Unix lm))); [|lia].
  reflexivity.
Qed.

Lemma collectData_fresh (c : NetatmoCollector) (device : Device) (st : string) (w : World)
    (lm : Z) :
  LastMeasure (Dashboard device) = Some lm ->
  dataAge (clock c (ticks w)) lm <= StaleThreshold c ->
  ValidString (moduleName_of device) = true -> ValidString st = true ->
  collectData c device st w = (tt, emit (freshLeafMetrics device st lm) (tick w)).
Proof.
  unfold collectData, dataAge, freshLeafMetrics. intros Hlm H Hm Hs. rewrite Hlm.
  unfold bind at 1. unfold now_. cbv zeta. fold (tick w).
  destruct (Z.ltb_spec (StaleThreshold c) (Sub (clock c (ticks w)) (time_Unix lm))); [lia|].
  erewrite bind_run by (apply sendMetric_labelled; auto).
  do 13 (erewrite bind_run by (apply ifPresent_send; auto)).
  rewrite ifPresent_send by auto.
  repeat rewrite emit_emit. simpl. reflexivity.
Qed.

(** ** What an action appends to the channel *)

Lemma adds_ret {A} (P : Metric -> Prop) (a : A) : adds P (ret a).
Proof. intros w. exists []. simpl. rewrite app_nil_r. auto. Qed.

Lemma adds_log (P : Metric -> Prop) (e : LogEntry) : adds P (log e).
Proof. intros w. exists []. simpl. rewrite app_nil_r. auto. Qed.

Lemma adds_now (P : Metric -> Prop) (c : NetatmoCollector) : adds P (now_ c).
Proof. intros w. exists []. simpl. rewrite app_nil_r. auto. Qed.

Lemma adds_bind {A B} (P : Metric -> Prop) (m : M A) (k : A -> M B) :
  adds P m -> (forall a, adds P (k a)) -> adds P (bind m k).
Proof.
  intros Hm Hk w. unfold bind.
  destruct (Hm w) as [ms1 [E1 F1]]. destruct (m w) as [a w1]. simpl in E1.
  destruct (Hk a w1) as [ms2 [E2 F2]].
  exists (ms1 ++ ms2). split.
  - rewrite E2, E1, app_assoc. reflexivity.
  - apply Forall_app. auto.
Qed.

Lemma adds_sendMetric (P : Metric -> Prop) (d : Desc) (v : float64) (ls : list string) :
  P (mkMetric d v ls) -> adds P (sendMetric d v ls).
Proof.
  intros H w. unfold sendMetric, NewConstMetric.
  destruct ((List.length ls =? List.length (variableLabels d))%nat && forallb ValidString ls).
  - exists [mkMetric d v ls]. simpl. auto.
  - exists []. simpl. rewrite app_nil_r. auto.
Qed.

Lemma adds_ifPresent {A} (P : Metric -> Prop) (p : option A) (body : A -> M unit) :
  (forall x, p = Some x -> adds P (body x)) -> adds P (ifPresent p body).
Proof.
  intros H. destruct p as [x|]; simpl.
  - apply H. reflexivity.
  - apply adds_ret.
Qed.

Lemma adds_forRange {A} (P : Metric -> Prop) (l : list A) (body : A -> M unit) :
  (forall x, In x l -> adds P (body x)) -> adds P (forRange l body).
Proof.
  induction l as [|x rest IH]; intros H; simpl.
  - apply adds_ret.
  - apply adds_bind.
    + apply H. left. reflexivity.
    + intros _. apply IH. intros y Hy. apply H. right. exact Hy.
Qed.

Lemma adds_weaken {A} (P Q : Metric -> Prop) (m : M A) :
  (forall x, P x -> Q x) -> adds P m -> adds Q m.
Proof.
  intros H Hm w. destruct (Hm w) as [ms [E F]]. exists ms. split; [exact E|].
  eapply Forall_impl; eauto.
Qed.

Create HintDb adds.
#[local] Hint Resolve adds_ret adds_log adds_now : adds.

Ltac adds_step :=
  first
    [ apply adds_sendMetric
    | apply adds_ifPresent; intros ? ?; apply adds_sendMetric ].

(** Every metric [collectData] sends is a per-sensor metric labelled with
    the leaf's module name and the station name it was called with. *)
Lemma adds_collectData (c : NetatmoCollector) (device : Device) (st : string) :
  adds (fun m => variableLabels (desc m) = varLabels /\
                 labelValues m = [moduleName_of device; st])
       (collectData c device st).
Proof.
  unfold collectData.
  destruct (LastMeasure (Dashboard device)) as [lm|]; [|auto with adds].
  apply adds_bind; [auto with adds|]. intros t. cbv zeta.
  destruct (StaleThreshold c <? Sub t (time_Unix lm)); [auto with adds|].
  repeat (apply adds_bind; [adds_step; simpl; auto | intros _]).
  adds_step; simpl; auto.
Qed.

(** ** The scrape *)

Lemma Collect_spawned (c : NetatmoCollector) (w : World) :
  fst (Collect c w)
  = if RefreshInterval c <=? Sub (clock c (ticks w)) (lastRefresh c)
    then Some (clock c (ticks w)) else None.
Proof.
  unfold Collect. unfold bind at 1. unfold now_. cbv zeta.
  repeat (apply fst_bind_const; intros ?).
  reflexivity.
Qed.

Lemma Collect_no_cache (c : NetatmoCollector) (w : World) :
  cachedData c = None ->
  mChan (snd (Collect c w)) = mChan w ++ selfHealthMetrics c.
Proof.
  intros H. unfold Collect. unfold bind at 1. unfold now_. cbv zeta.
  do 5 (erewrite bind_run by (apply sendMetric_unlabelled; reflexivity)).
  rewrite H. simpl. repeat rewrite <- app_assoc. reflexivity.
Qed.

Lemma Collect_self_health_first (c : NetatmoCollector) (w : World) :
  exists rest,
    mChan (snd (Collect c w)) = mChan w ++ selfHealthMetrics c ++ rest /\
    Forall (leafLabelled c) rest.
Proof.
  unfold Collect. unfold bind at 1. unfold now_. cbv zeta.
  do 5 (erewrite bind_run by (apply sendMetric_unlabelled; reflexivity)).
  repeat rewrite emit_emit.
  match goal with
  | |- context [bind ?m ?k ?w0] =>
    assert (Ha : adds (leafLabelled c) (bind m k))
  end.
  { apply adds_bind; [|intros; apply adds_ret].
    apply adds_ifPresent. intros data Hdata.
    apply adds_forRange. intros dev Hdev.
    apply adds_bind.
    - eapply adds_weaken; [|apply adds_collectData].
      intros m [Hv Hl]. exists data, dev, dev. auto.
    - intros _. apply adds_forRange. intros module Hmod.
      eapply adds_weaken; [|apply adds_collectData].
      intros m [Hv Hl]. exists data, dev, module. auto 6. }
  match goal with
  | |- context [bind ?m ?k ?w0] => destruct (Ha w0) as [ms [E F]]
  end.
  exists ms. split; [|exact F]. rewrite E. simpl. rewrite <- app_assoc. reflexivity.
Qed.

(** ** Sequences of refreshes *)

Lemma refreshes_cons (c : NetatmoCollector) (now : Time) (rest : list Time) (w : World) :
  refreshes c (now :: rest) w
  = refreshes (fst (RefreshData c now w)) rest (snd (RefreshData c now w)).
Proof.
  simpl. unfold bind. destruct (RefreshData c now w) as [c1 w1]. reflexivity.
Qed.

Lemma refreshes_last_attempt (nows : list Time) :
  forall (c : NetatmoCollector) (w : World),
  Forall (fun t => IsZero t = false) nows -> nows <> [] ->
  let c' := fst (refreshes c nows w) in
  IsZero (lastRefresh c') = false /\
  lastRefreshError c' = last (fetchErrors (ReadFunction c) (reads w) (List.length nows)) None.
Proof.
  induction nows as [|now rest IH]; intros c w Hnz Hne; [congruence|].
  inversion Hnz as [|t l Hnow Hrest]; subst.
  rewrite refreshes_cons.
  pose proof (RefreshData_fields c now w) as Hf.
  pose proof (RefreshData_frame c now w) as Hfr.
  cbv zeta in Hf, Hfr.
  destruct Hf as (Hlr & Herr & _). destruct Hfr as (_ & _ & Hrf & _ & Hreads & _).
  destruct rest as [|now' rest'].
  - simpl. rewrite Hlr, Herr. auto.
  - specialize (IH (fst (RefreshData c now w)) (snd (RefreshData c now w)) Hrest).
    cbv zeta in IH. destruct IH as [IH1 IH2]; [congruence|].
    split; [exact IH1|].
    rewrite IH2, Hrf, Hreads. reflexivity.
Qed.

Lemma last_ok_ever_succeeded (errs : list (option error)) :
  errs <> [] -> isNil (last errs None) = true -> existsb isNil errs = true.
Proof.
  induction errs as [|e rest IH]; intros Hne H; [congruence|].
  destruct rest as [|e' rest'].
  - simpl in *. rewrite H. reflexivity.
  - change (existsb isNil (e :: e' :: rest')) with (isNil e || existsb isNil (e' :: rest')).
    rewrite IH; [apply orb_true_r|congruence|exact H].
Qed.

Lemma refreshes_keep_order (nows : list Time) :
  forall (c : NetatmoCollector) (w : World),
  time_le (cacheTimestamp c) (lastRefresh c) ->
  nondecreasing (lastRefresh c) nows ->
  let c' := fst (refreshes c nows w) in
  time_le (cacheTimestamp c') (lastRefresh c').
Proof.
  induction nows as [|now rest IH]; intros c w Hinv Hmono.
  - exact Hinv.
  - destruct Hmono as [Hle Hrest]. rewrite refreshes_cons.
    pose proof (RefreshData_fields c now w) as Hf. cbv zeta in Hf.
    destruct Hf as (Hlr & _ & Hct & _).
    apply IH.
    + rewrite Hlr, Hct.
      destruct (notNil (snd (ReadFunction c (reads w)))).
      * eapply time_le_trans; eassumption.
      * apply time_le_refl.
    + rewrite Hlr. exact Hrest.
Qed.

(** ** The scenarios of the specification, run on the sample data *)

(** The sample station ten seconds after its measurement: up is 1, the main
    unit reports its temperature and humidity, and no other sensor. *)
Example scenario_fresh_station :
  map (fun m => (fqName (desc m), labelValues m))
      (mChan (snd (Collect ex_cached ex_world)))
  = [ ("netatmo_up", []); ("netatmo_refresh_interval_seconds", []);
      ("netatmo_last_refresh_time", []); ("netatmo_last_refresh_duration_seconds", []);
      ("netatmo_cache_updated_time", []);
      ("netatmo_aircare_updated", ["Indoor"; "Home"]);
      ("netatmo_aircare_temperature_celsius", ["Indoor"; "Home"]);
      ("netatmo_aircare_humidity_percent", ["Indoor"; "Home"]);
      ("netatmo_aircare_last_measure_utc", ["Indoor"; "Home"]);
      ("netatmo_aircare_updated", ["id-02:00:00:aa:bb:cc"; "Home"]);
      ("netatmo_aircare_last_measure_utc", ["id-02:00:00:aa:bb:cc"; "Home"]) ]%string /\
  nth_error (map value (mChan (snd (Collect ex_cached ex_world)))) 0 = Some f64_one /\
  nth_error (map value (mChan (snd (Collect ex_cached ex_world)))) 7
  = Some (float64_of_Z 55).
Proof. repeat split; vm_compute; reflexivity. Qed.

(** The same station four hundred seconds after its measurement, with a
    threshold of three hundred: up is still 1 and no leaf reports. *)
Example scenario_stale_station :
  map (fun m => fqName (desc m)) (mChan (snd (Collect ex_late ex_world)))
  = [ "netatmo_up"; "netatmo_refresh_interval_seconds"; "netatmo_last_refresh_time";
      "netatmo_last_refresh_duration_seconds"; "netatmo_cache_updated_time" ]%string /\
  nth_error (map value (mChan (snd (Collect ex_late ex_world)))) 0 = Some f64_one /\
  List.length (logged (snd (Collect ex_late ex_world))) = 2%nat.
Proof. repeat split; vm_compute; reflexivity. Qed.

(** A fetch that fails on the first call: up is 0, the cache time is 0 and
    no per-sensor metric is sent. *)
Example scenario_first_fetch_fails :
  map (fun m => (fqName (desc m), value m))
      (mChan (snd (Collect
                     (fst (RefreshData (New ex_read_fail ex_interval ex_threshold ex_clock)
                             (ex_clock 0) ex_world))
                     ex_world)))
  = [ ("netatmo_up", f64_zero);
      ("netatmo_refresh_interval_seconds", float64_of_Z 60);
      ("netatmo_last_refresh_time", float64_of_Z (ex_lastMeasure + 10));
      ("netatmo_last_refresh_duration_seconds", float64_of_Z 1);
      ("netatmo_cache_updated_time", f64_zero) ]%string.
Proof. vm_compute. reflexivity. Qed.

(** A leaf whose name is not valid UTF-8: every metric of the leaf is
    refused by [NewConstMetric], logged and dropped. *)
Example scenario_misnamed_leaf :
  mChan (snd (collectData ex_cached ex_misnamed "Home" ex_world)) = [] /\
  logged (snd (collectData ex_cached ex_misnamed "Home" ex_world))
  = [ Errorf (ErrorCreatingMetric updatedDesc); Errorf (ErrorCreatingMetric updatedDesc) ].
Proof. split; vm_compute; reflexivity. Qed.

(** ** The refresh executor *)

(** C4. When the fetch function returns an error, [RefreshData] stores that
    error as the last refresh error and leaves the cached snapshot and the
    cache timestamp as they were. *)
Theorem RefreshData_error_keeps_cache
    (c : NetatmoCollector) (now : Time) (w : World) (e : error) :
  snd (ReadFunction c (reads w)) = Some e ->
  let c' := fst (RefreshData c now w) in
  lastRefreshError c' = Some e /\
  cachedData c' = cachedData c /\
  cacheTimestamp c' = cacheTimestamp c.
Proof.
  intros H c'. pose proof (RefreshData_fields c now w) as Hf. cbv zeta in Hf.
  destruct Hf as (_ & Herr & Hct & Hcd & _). fold c' in Herr, Hct, Hcd.
  rewrite H in *. simpl in *. auto.
Qed.

Lemma RefreshData_error_keeps_cache_witness :
  snd (ReadFunction ex_failing (reads ex_world)) = Some "connection refused" /\
  lastRefreshError (fst (RefreshData ex_failing (ex_clock 61) ex_world))
  = Some "connection refused" /\
  cachedData (fst (RefreshData ex_failing (ex_clock 61) ex_world)) = cachedData ex_failing /\
  cacheTimestamp (fst (RefreshData ex_failing (ex_clock 61) ex_world))
  = cacheTimestamp ex_failing.
Proof.
  split; [reflexivity|].
  exact (RefreshData_error_keeps_cache ex_failing (ex_clock 61) ex_world
           "connection refused" eq_refl).
Defined.

(** C5. When the fetch returns a device collection and no error,
    [RefreshData] at time [now] clears the stored error, caches that
    collection and sets the cache timestamp and the last-attempt time to
    [now], so that the two are equal. Whatever the fetch returns, so also
    when it fails, the last-attempt time is [now] afterwards, and it was
    already [now] when the fetch function was called. *)
Theorem RefreshData_success_updates_cache
    (c : NetatmoCollector) (now : Time) (w : World) (devices : DeviceCollection) :
  ReadFunction c (reads w) = (Some devices, None) ->
  let c' := fst (RefreshData c now w) in
  lastRefreshError c' = None /\
  cachedData c' = Some devices /\
  cacheTimestamp c' = now /\
  lastRefresh c' = now /\
  cacheTimestamp c' = lastRefresh c' /\
  (forall (c0 : NetatmoCollector) (w0 : World),
     lastRefresh (fst (RefreshData c0 now w0)) = now /\
     fetchCalls (snd (RefreshData c0 now w0)) = fetchCalls w0 ++ [now]).
Proof.
  intros H c'. pose proof (RefreshData_fields c now w) as Hf. cbv zeta in Hf.
  destruct Hf as (Hlr & Herr & Hct & Hcd & _). fold c' in Hlr, Herr, Hct, Hcd.
  rewrite H in *. simpl in *.
  repeat split; try assumption; try congruence.
  - apply (RefreshData_fields c0 now w0).
  - apply (RefreshData_frame c0 now w0).
Qed.

Lemma RefreshData_success_updates_cache_witness :
  ReadFunction ex_new (reads ex_world) = (Some ex_collection, None) /\
  lastRefreshError (fst (RefreshData ex_new (ex_clock 0) ex_world)) = None /\
  cachedData (fst (RefreshData ex_new (ex_clock 0) ex_world)) = Some ex_collection /\
  cacheTimestamp (fst (RefreshData ex_new (ex_clock 0) ex_world)) = ex_clock 0 /\
  lastRefresh (fst (RefreshData ex_new (ex_clock 0) ex_world)) = ex_clock 0 /\
  cacheTimestamp (fst (RefreshData ex_new (ex_clock 0) ex_world))
  = lastRefresh (fst (RefreshData ex_new (ex_clock 0) ex_world)) /\
  (forall (c0 : NetatmoCollector) (w0 : World),
     lastRefresh (fst (RefreshData c0 (ex_clock 0) w0)) = ex_clock 0 /\
     fetchCalls (snd (RefreshData c0 (ex_clock 0) w0)) = fetchCalls w0 ++ [ex_clock 0]).
Proof.
  split; [reflexivity|].
  exact (RefreshData_success_updates_cache ex_new (ex_clock 0) ex_world ex_collection
           eq_refl).
Defined.

(** ** The refresh trigger *)

(** C6. A scrape whose clock reads [now] starts a refresh, with [now] as
    its attempt time, exactly when [now.Sub(lastRefresh)] is at least the
    refresh interval; for an interval above the least duration that is the
    same as the exact difference [now - lastRefresh] being at least the
    interval. A first scrape, whose last-attempt time is the zero value,
    starts a refresh for every interval, at any clock reading from the Unix
    epoch on. *)
Theorem Collect_triggers_refresh (c : NetatmoCollector) (w : World) :
  int64_range (RefreshInterval c) ->
  let now := clock c (ticks w) in
  (fst (Collect c w) = Some now <-> RefreshInterval c <= Sub now (lastRefresh c)) /\
  (fst (Collect c w) = None <-> Sub now (lastRefresh c) < RefreshInterval c) /\
  (minDuration < RefreshInterval c ->
   (fst (Collect c w) = Some now <-> RefreshInterval c <= now - lastRefresh c)) /\
  (IsZero (lastRefresh c) = true -> time_le (time_Unix 0) now ->
   fst (Collect c w) = Some now).
Proof.
  intros Hr now. rewrite Collect_spawned. fold now.
  assert (H1 : (if RefreshInterval c <=? Sub now (lastRefresh c) then Some now else None)
               = Some now <-> RefreshInterval c <= Sub now (lastRefresh c)).
  { destruct (Z.leb_spec (RefreshInterval c) (Sub now (lastRefresh c))); split;
      intros; try reflexivity; try assumption; try discriminate; lia. }
  split; [exact H1|]. split; [|split].
  - destruct (Z.leb_spec (RefreshInterval c) (Sub now (lastRefresh c))); split;
      intros; try reflexivity; try assumption; try discriminate; lia.
  - intros Hmin. rewrite H1. apply Sub_ge_iff.
    unfold int64_range in Hr. unfold minDuration, maxDuration in *. lia.
  - intros Hz Hnow. apply H1.
    unfold IsZero in Hz. apply Z.eqb_eq in Hz. rewrite Hz.
    fold zeroTime. rewrite (Sub_zeroTime_saturates now Hnow).
    unfold int64_range in Hr. unfold maxDuration. lia.
Qed.

Lemma Collect_triggers_refresh_witness :
  int64_range (RefreshInterval ex_new) /\
  IsZero (lastRefresh ex_new) = true /\
  time_le (time_Unix 0) (ex_clock 0) /\
  fst (Collect ex_new ex_world) = Some (ex_clock 0).
Proof.
  assert (H : int64_range (RefreshInterval ex_new)) by (vm_compute; split; discriminate).
  assert (Hle : time_le (time_Unix 0) (ex_clock 0)) by (vm_compute; discriminate).
  split; [exact H|]. split; [reflexivity|]. split; [exact Hle|].
  exact (proj2 (proj2 (proj2 (Collect_triggers_refresh ex_new ex_world H))) eq_refl Hle).
Defined.

(** ** The invariant of the two timestamps *)

(** C7. After any sequence of refreshes of a new collector, successful or
    not, whose attempt times never go back from the zero value on, the cache
    timestamp is not after the last-attempt time; each refresh sets the
    attempt time, and changes the cache timestamp only when the fetch
    returned no error. *)
Theorem cacheTimestamp_le_lastRefresh
    (readFunction : nat -> FetchResult) (refreshInterval staleDuration : Duration)
    (time_Now : nat -> Time) (nows : list Time) (w : World) :
  nondecreasing zeroTime nows ->
  let c := fst (refreshes (New readFunction refreshInterval staleDuration time_Now) nows w) in
  time_le (cacheTimestamp c) (lastRefresh c) /\
  (forall (c0 : NetatmoCollector) (now : Time) (w0 : World),
     lastRefresh (fst (RefreshData c0 now w0)) = now /\
     cacheTimestamp (fst (RefreshData c0 now w0))
     = if notNil (snd (ReadFunction c0 (reads w0))) then cacheTimestamp c0 else now).
Proof.
  intros H c. split.
  - apply refreshes_keep_order; [apply time_le_refl|exact H].
  - intros c0 now w0. pose proof (RefreshData_fields c0 now w0) as Hf. cbv zeta in Hf.
    destruct Hf as (Hlr & _ & Hct & _). auto.
Qed.

Lemma cacheTimestamp_le_lastRefresh_witness :
  nondecreasing zeroTime [ex_clock 0; ex_clock 61; ex_clock 61] /\
  time_le
    (cacheTimestamp (fst (refreshes (New ex_read_once ex_interval ex_threshold ex_clock)
                            [ex_clock 0; ex_clock 61; ex_clock 61] ex_world)))
    (lastRefresh (fst (refreshes (New ex_read_once ex_interval ex_threshold ex_clock)
                         [ex_clock 0; ex_clock 61; ex_clock 61] ex_world))).
Proof.
  assert (H : nondecreasing zeroTime [ex_clock 0; ex_clock 61; ex_clock 61]).
  { simpl. unfold time_le. repeat split; vm_compute; discriminate. }
  split; [exact H|].
  exact (proj1 (cacheTimestamp_le_lastRefresh ex_read_once ex_interval ex_threshold
                  ex_clock [ex_clock 0; ex_clock 61; ex_clock 61] ex_world H)).
Defined.

(** ** A scrape without a snapshot *)

(** C9. When no snapshot is cached, a scrape sends exactly the five
    self-health metrics, none of them a per-sensor metric, and the
    last-refresh-time and cache-updated-time gauges are 0 when their times
    are the zero value. *)
Theorem Collect_without_snapshot (c : NetatmoCollector) (w : World) :
  cachedData c = None ->
  mChan (snd (Collect c w))
  = mChan w ++
    [ mkMetric netatmoUpDesc
        (if IsZero (lastRefresh c) || notNil (lastRefreshError c)
         then f64_zero else f64_one) [];
      mkMetric refreshIntervalDesc (Seconds (RefreshInterval c)) [];
      mkMetric refreshTimestampDesc
        (if IsZero (lastRefresh c) then f64_zero else float64_of_Z (Unix (lastRefresh c))) [];
      mkMetric refreshDurationDesc (Seconds (lastRefreshDuration c)) [];
      mkMetric cacheTimestampDesc
        (if IsZero (cacheTimestamp c) then f64_zero
         else float64_of_Z (Unix (cacheTimestamp c))) [] ].
Proof.
  intros H. rewrite (Collect_no_cache c w H). reflexivity.
Qed.

Lemma Collect_without_snapshot_witness :
  cachedData ex_new = None /\
  mChan (snd (Collect ex_new ex_world))
  = [ mkMetric netatmoUpDesc f64_zero [];
      mkMetric refreshIntervalDesc (Seconds ex_interval) [];
      mkMetric refreshTimestampDesc f64_zero [];
      mkMetric refreshDurationDesc (Seconds 0) [];
      mkMetric cacheTimestampDesc f64_zero [] ].
Proof.
  split; [reflexivity|].
  exact (Collect_without_snapshot ex_new ex_world eq_refl).
Defined.

(** ** The staleness policy *)

Lemma app_nonempty_neq {A} (l ms : list A) : ms <> [] -> l ++ ms <> l.
Proof.
  intros Hne H. apply (f_equal (@List.length A)) in H. rewrite length_app in H.
  destruct ms; [congruence|]. simpl in H. lia.
Qed.

Lemma freshLeafMetrics_nonempty (device : Device) (st : string) (lm : Z) :
  freshLeafMetrics device st lm <> [].
Proof. unfold freshLeafMetrics. discriminate. Qed.

Lemma forRange_cons {A} (x : A) (rest : list A) (body : A -> M unit) (w : World) :
  forRange (x :: rest) body w = forRange rest body (snd (body x w)).
Proof. simpl. unfold bind. destruct (body x w). reflexivity. Qed.

(** ** Labels *)

(** C3, as stated, fails on the sample station: the metrics of the main
    device "Indoor" and of its linked module carry the station label "Home",
    which is not the main device's display name. *)
Lemma station_label_is_not_display_name :
  moduleName_of ex_station = "Indoor"%string /\
  map labelValues (mChan (snd (Collect ex_cached ex_world)))
  = [ []; []; []; []; [];
      ["Indoor"; "Home"]; ["Indoor"; "Home"]; ["Indoor"; "Home"]; ["Indoor"; "Home"];
      ["id-02:00:00:aa:bb:cc"; "Home"]; ["id-02:00:00:aa:bb:cc"; "Home"] ]%string /\
  (exists m, In m (mChan (snd (Collect ex_cached ex_world))) /\
             desc m = updatedDesc /\
             nth_error (labelValues m) 0 = Some (moduleName_of ex_station) /\
             nth_error (labelValues m) 1 <> Some (moduleName_of ex_station)).
Proof.
  split; [reflexivity|]. split; [vm_compute; reflexivity|].
  exists (mkMetric updatedDesc (float64_of_Z ex_lastMeasure) ["Indoor"; "Home"]%string).
  split; [vm_compute; tauto|].
  split; [reflexivity|]. split; [reflexivity|].
  simpl. discriminate.
Qed.

(** ** Leaves with few or many fields *)

Lemma optMetric_length {A} (p : option A) (mk : A -> Metric) :
  (List.length (optMetric p mk) <= 1)%nat.
Proof. destruct p; simpl; lia. Qed.

(** C8, as the code has it. A leaf within the stale threshold, with valid
    label values and none of its optional sensor and signal fields set,
    sends two metrics: "updated" and "last_measure_utc", both carrying its
    measurement time, and no other. *)
Theorem leaf_without_sensors_sends_updated_and_last_measure
    (c : NetatmoCollector) (device : Device) (st : string) (w : World) (lm : Z) :
  ValidString (moduleName_of device) = true -> ValidString st = true ->
  LastMeasure (Dashboard device) = Some lm ->
  dataAge (clock c (ticks w)) lm <= StaleThreshold c ->
  noOptionalFields device ->
  mChan (snd (collectData c device st w))
  = mChan w ++
    [ mkMetric updatedDesc (float64_of_Z (Unix (time_Unix lm))) [moduleName_of device; st];
      mkMetric lastMeasureUtcDesc (float64_of_Z lm) [moduleName_of device; st] ].
Proof.
  intros Hm Hs Hlm Hage Hno.
  rewrite (collectData_fresh c device st w lm Hlm Hage Hm Hs).
  unfold noOptionalFields in Hno.
  destruct Hno as (H1 & H2 & H3 & H4 & H5 & H6 & H7 & H8 & H9 & H10 & H11 & H12 & H13).
  unfold freshLeafMetrics.
  rewrite H1, H2, H3, H4, H5, H6, H7, H8, H9, H10, H11, H12, H13.
  reflexivity.
Qed.

Lemma leaf_without_sensors_sends_updated_and_last_measure_witness :
  ValidString (moduleName_of ex_module) = true /\
  ValidString "Home" = true /\
  LastMeasure (Dashboard ex_module) = Some ex_lastMeasure /\
  dataAge (clock ex_cached (ticks ex_world)) ex_lastMeasure <= StaleThreshold ex_cached /\
  noOptionalFields ex_module /\
  mChan (snd (collectData ex_cached ex_module "Home" ex_world))
  = mChan ex_world ++
    [ mkMetric updatedDesc (float64_of_Z (Unix (time_Unix ex_lastMeasure)))
        [moduleName_of ex_module; "Home"%string];
      mkMetric lastMeasureUtcDesc (float64_of_Z ex_lastMeasure)
        [moduleName_of ex_module; "Home"%string] ].
Proof.
  assert (Hage : dataAge (clock ex_cached (ticks ex_world)) ex_lastMeasure
                 <= StaleThreshold ex_cached) by (vm_compute; discriminate).
  assert (Hno : noOptionalFields ex_module) by (repeat split).
  split; [reflexivity|]. split; [reflexivity|]. split; [reflexivity|].
  split; [exact Hage|]. split; [exact Hno|].
  exact (leaf_without_sensors_sends_updated_and_last_measure ex_cached ex_module "Home"
           ex_world ex_lastMeasure eq_refl eq_refl eq_refl Hage Hno).
Defined.

(** C8, as stated, fails on the sample module, which has only its
    measurement time: it sends "updated" and also "last_measure_utc". *)
Lemma leaf_without_sensors_sends_more_than_updated :
  noOptionalFields ex_module /\
  map (fun m => fqName (desc m))
      (mChan (snd (collectData ex_cached ex_module "Home" ex_world)))
  = [ "netatmo_aircare_updated"; "netatmo_aircare_last_measure_utc" ]%string /\
  (exists m, In m (mChan (snd (collectData ex_cached ex_module "Home" ex_world))) /\
             desc m <> updatedDesc).
Proof.
  split; [repeat split|]. split; [vm_compute; reflexivity|].
  exists (mkMetric lastMeasureUtcDesc (float64_of_Z ex_lastMeasure)
            ["id-02:00:00:aa:bb:cc"; "Home"]%string).
  split; [vm_compute; tauto|]. simpl. discriminate.
Qed.

Lemma fqName_in_schema (d : Desc) :
  existsb (String.eqb (fqName d)) spec_schema = true -> In (fqName d) spec_schema.
Proof.
  intros H. apply existsb_exists in H. destruct H as [n [Hin E]].
  apply String.eqb_eq in E. rewrite E. exact Hin.
Qed.

(** C10, as the code has it. A leaf within the stale threshold, with valid
    label values, sends "updated" first and "last_measure_utc" last, the
    latter carrying the raw [lastMeasure] with the same two labels, and at
    most thirteen metrics between them: at least two metrics and at most
    fifteen. [Describe] declares fifteen per-sensor descriptors;
    "last_measure_utc" is the one of them whose name the schema of the
    specification does not list, the fifteenth next to its fourteen. *)
Theorem last_measure_utc_is_the_fifteenth_leaf_metric
    (c : NetatmoCollector) (device : Device) (st : string) (w : World) (lm : Z) :
  ValidString (moduleName_of device) = true -> ValidString st = true ->
  LastMeasure (Dashboard device) = Some lm ->
  dataAge (clock c (ticks w)) lm <= StaleThreshold c ->
  (exists sensors,
     mChan (snd (collectData c device st w))
     = mChan w ++
       mkMetric updatedDesc (float64_of_Z (Unix (time_Unix lm))) [moduleName_of device; st]
       :: sensors ++
       [mkMetric lastMeasureUtcDesc (float64_of_Z lm) [moduleName_of device; st]] /\
     (List.length sensors <= 13)%nat) /\
  List.length perSensorDescs = 15%nat /\
  In lastMeasureUtcDesc perSensorDescs /\
  ~ In (fqName lastMeasureUtcDesc) spec_schema /\
  (forall d, In d perSensorDescs -> d <> lastMeasureUtcDesc -> In (fqName d) spec_schema).
Proof.
  intros Hm Hs Hlm Hage. split; [|split; [reflexivity|split; [|split]]].
  - rewrite (collectData_fresh c device st w lm Hlm Hage Hm Hs).
    unfold freshLeafMetrics. cbv zeta. simpl mChan.
    eexists. split.
    + f_equal. f_equal. repeat rewrite app_assoc. reflexivity.
    + repeat rewrite length_app.
      repeat match goal with
             | |- context [List.length (optMetric ?p ?f)] =>
               generalize (optMetric_length p f);
               generalize (List.length (optMetric p f)); intros ? ?
             end.
      lia.
  - vm_compute. tauto.
  - intros H. vm_compute in H.
    repeat (destruct H as [H|H]; [discriminate H|]). exact H.
  - intros d Hd Hne. unfold perSensorDescs, Describe in Hd. simpl in Hd.
    repeat (destruct Hd as [Hd|Hd];
            [subst d; first [exfalso; apply Hne; reflexivity
                            | apply fqName_in_schema; vm_compute; reflexivity]|]).
    destruct Hd.
Qed.

Lemma last_measure_utc_is_the_fifteenth_leaf_metric_witness :
  ValidString (moduleName_of ex_full) = true /\
  ValidString "Home" = true /\
  LastMeasure (Dashboard ex_full) = Some ex_lastMeasure /\
  dataAge (clock ex_cached (ticks ex_world)) ex_lastMeasure <= StaleThreshold ex_cached /\
  exists sensors,
    mChan (snd (collectData ex_cached ex_full "Home" ex_world))
    = mChan ex_world ++
      mkMetric updatedDesc (float64_of_Z (Unix (time_Unix ex_lastMeasure)))
        [moduleName_of ex_full; "Home"%string]
      :: sensors ++
      [mkMetric lastMeasureUtcDesc (float64_of_Z ex_lastMeasure)
         [moduleName_of ex_full; "Home"%string]] /\
    (List.length sensors <= 13)%nat.
Proof.
  assert (Hage : dataAge (clock ex_cached (ticks ex_world)) ex_lastMeasure
                 <= StaleThreshold ex_cached) by (vm_compute; discriminate).
  split; [reflexivity|]. split; [reflexivity|]. split; [reflexivity|].
  split; [exact Hage|].
  exact (proj1 (last_measure_utc_is_the_fifteenth_leaf_metric ex_cached ex_full "Home"
                  ex_world ex_lastMeasure eq_refl eq_refl eq_refl Hage)).
Defined.

(** C10, as stated, fails on the count: the code has fifteen per-sensor
    descriptors, not sixteen, and a leaf with every optional field set sends
    fifteen metrics, "last_measure_utc" being the fifteenth and last. *)
Lemma last_measure_utc_is_not_a_sixteenth :
  List.length perSensorDescs <> 16%nat /\
  List.length (mChan (snd (collectData ex_cached ex_full "Home" ex_world))) = 15%nat /\
  nth_error (map (fun m => fqName (desc m))
               (mChan (snd (collectData ex_cached ex_full "Home" ex_world)))) 14
  = Some "netatmo_aircare_last_measure_utc"%string /\
  nth_error (mChan (snd (collectData ex_cached ex_full "Home" ex_world))) 15 = None.
Proof.
  split; [vm_compute; discriminate|].
  split; [vm_compute; reflexivity|].
  split; vm_compute; reflexivity.
Qed.

(** * Further properties of the collector *)

(** ** What an action costs *)

Lemma spends_ret {A} (a : A) : spends 0 0 (ret a).
Proof.
  intros w. simpl. repeat split; try lia. exists []. rewrite app_nil_r. auto.
Qed.

Lemma spends_log (e : LogEntry) : spends 0 0 (log e).
Proof.
  intros w. simpl. repeat split; try lia. exists []. rewrite app_nil_r. auto.
Qed.

Lemma spends_now (c : NetatmoCollector) : spends 1 0 (now_ c).
Proof.
  intros w. simpl. repeat split; try lia. exists []. rewrite app_nil_r. auto.
Qed.

Lemma spends_sendMetric (d : Desc) (v : float64) (ls : list string) :
  spends 0 1 (sendMetric d v ls).
Proof.
  intros w. unfold sendMetric. destruct (NewConstMetric d v ls) as [m|]; simpl.
  - repeat split; try lia. exists [m]. auto.
  - repeat split; try lia. exists []. rewrite app_nil_r. simpl. auto.
Qed.

Lemma spends_weaken {A} (t n t' n' : nat) (m : M A) :
  spends t n m -> (t <= t')%nat -> (n <= n')%nat -> spends t' n' m.
Proof.
  intros H Ht Hn w. destruct (H w) as (Hf & Hk & ms & E & Hl).
  repeat split; try lia; try assumption. exists ms. split; [exact E|lia].
Qed.

Lemma spends_bind {A B} (t1 n1 t2 n2 : nat) (m : M A) (k : A -> M B) :
  spends t1 n1 m -> (forall a, spends t2 n2 (k a)) ->
  spends (t1 + t2) (n1 + n2) (bind m k).
Proof.
  intros Hm Hk w. unfold bind.
  destruct (Hm w) as (Hf1 & Ht1 & ms1 & E1 & Hl1). destruct (m w) as [a w1]. simpl in *.
  destruct (Hk a w1) as (Hf2 & Ht2 & ms2 & E2 & Hl2).
  repeat split; try lia; try congruence.
  exists (ms1 ++ ms2). split.
  - rewrite E2, E1, app_assoc. reflexivity.
  - rewrite length_app. lia.
Qed.

Lemma spends_ifPresent {A} (t n : nat) (p : option A) (body : A -> M unit) :
  (forall x, p = Some x -> spends t n (body x)) -> spends t n (ifPresent p body).
Proof.
  intros H. destruct p as [x|]; simpl.
  - apply H. reflexivity.
  - eapply spends_weaken; [apply spends_ret|lia|lia].
Qed.

Lemma spends_forRange {A} (f : A -> nat) (l : list A) (body : A -> M unit) :
  (forall x, In x l -> spends (f x) (15 * f x) (body x)) ->
  spends (list_sum (map f l)) (15 * list_sum (map f l)) (forRange l body).
Proof.
  induction l as [|x rest IH]; intros H; simpl forRange; simpl list_sum.
  - apply spends_ret.
  - eapply spends_weaken.
    + apply spends_bind.
      * apply H. left. reflexivity.
      * intros _. apply IH. intros y Hy. apply H. right. exact Hy.
    + lia.
    + lia.
Qed.

Lemma spends_collectData (c : NetatmoCollector) (device : Device) (st : string) :
  spends 1 15 (collectData c device st).
Proof.
  unfold collectData.
  destruct (LastMeasure (Dashboard device)) as [lm|].
  2:{ eapply spends_weaken; [apply spends_log|lia|lia]. }
  change 15%nat with (0 + 15)%nat. change 1%nat with (1 + 0)%nat at 1.
  apply spends_bind; [apply spends_now|]. intros t. cbv zeta.
  destruct (StaleThreshold c <? Sub t (time_Unix lm)).
  { eapply spends_weaken; [apply spends_log|lia|lia]. }
  eapply spends_weaken.
  - repeat (eapply spends_bind;
            [first [apply spends_sendMetric
                   | apply spends_ifPresent; intros ? ?; apply spends_sendMetric]
            | intros _]).
    apply spends_ifPresent. intros ? ?. apply spends_sendMetric.
  - simpl. lia.
  - simpl. lia.
Qed.

Lemma spends_collectLeaves (c : NetatmoCollector) (data : DeviceCollection) :
  spends (leafCount (Some data)) (15 * leafCount (Some data)) (collectLeaves c data).
Proof.
  unfold collectLeaves, leafCount.
  apply (spends_forRange (fun dev => S (List.length (LinkedModules dev)))).
  intros dev _. cbv zeta.
  eapply spends_weaken.
  - apply spends_bind; [apply spends_collectData|]. intros _.
    apply (spends_forRange (fun _ => 1%nat)).
    intros module _. apply spends_collectData.
  - assert (E : forall (l : list Device), list_sum (map (fun _ => 1%nat) l) = List.length l).
    { induction l; simpl; lia. }
    rewrite E. lia.
  - assert (E : forall (l : list Device), list_sum (map (fun _ => 1%nat) l) = List.length l).
    { induction l; simpl; lia. }
    rewrite E. lia.
Qed.

Lemma snd_bind_ret {A B} (m : M A) (b : B) (w : World) :
  snd (bind m (fun _ => ret b) w) = snd (m w).
Proof. unfold bind, ret. destruct (m w). reflexivity. Qed.

Lemma Collect_leaves (c : NetatmoCollector) (w : World) :
  snd (Collect c w)
  = snd (ifPresent (cachedData c) (collectLeaves c) (emit (selfHealthMetrics c) (tick w))).
Proof.
  unfold Collect. unfold bind at 1. unfold now_. cbv zeta. fold (tick w).
  do 5 (erewrite bind_run by (apply sendMetric_unlabelled; reflexivity)).
  repeat rewrite emit_emit. rewrite snd_bind_ret. reflexivity.
Qed.

Lemma spends_leaf_part (c : NetatmoCollector) :
  spends (leafCount (cachedData c)) (15 * leafCount (cachedData c))
         (ifPresent (cachedData c) (collectLeaves c)).
Proof.
  apply spends_ifPresent. intros data E. rewrite E. apply spends_collectLeaves.
Qed.

(** ** What a scrape costs *)

(** A scrape never calls the fetch function itself, it only hands the
    refresh over; it reads the clock once for itself and at most once more
    for each leaf of the cached snapshot. *)
Theorem Collect_never_fetches (c : NetatmoCollector) (w : World) :
  fetchCalls (snd (Collect c w)) = fetchCalls w /\
  (ticks w + 1 <= ticks (snd (Collect c w)) <= ticks w + 1 + leafCount (cachedData c))%nat.
Proof.
  rewrite Collect_leaves.
  destruct (spends_leaf_part c (emit (selfHealthMetrics c) (tick w))) as (Hf & Ht & _).
  simpl in Hf, Ht. split; [exact Hf|lia].
Qed.

(** A scrape always sends the five self-health metrics and, beyond them,
    at most fifteen metrics for each leaf of the cached snapshot. *)
Theorem Collect_metric_count (c : NetatmoCollector) (w : World) :
  exists ms,
    mChan (snd (Collect c w)) = mChan w ++ ms /\
    (5 <= List.length ms <= 5 + 15 * leafCount (cachedData c))%nat.
Proof.
  rewrite Collect_leaves.
  destruct (spends_leaf_part c (emit (selfHealthMetrics c) (tick w)))
    as (_ & _ & ms & E & Hl).
  exists (selfHealthMetrics c ++ ms). split.
  - rewrite E. simpl. rewrite <- app_assoc. reflexivity.
  - rewrite length_app. simpl. lia.
Qed.

(** ** Refused metrics *)

Lemma complain_complain (a b : nat) (w : World) :
  complain b (complain a w) = complain (a + b) w.
Proof.
  unfold complain. simpl. rewrite <- app_assoc, <- repeat_app. reflexivity.
Qed.

Lemma complain_zero (w : World) : complain 0 w = w.
Proof. unfold complain. simpl. rewrite app_nil_r. destruct w; reflexivity. Qed.

Lemma sendMetric_refused (d : Desc) (v : float64) (m s : string) (w : World) :
  ValidString m && ValidString s = false ->
  sendMetric d v [m; s] w = (tt, complain 1 w).
Proof.
  intros H.
  assert (E : forallb ValidString [m; s] = false)
    by (simpl; rewrite andb_true_r; exact H).
  unfold sendMetric, NewConstMetric. rewrite E, andb_false_r. reflexivity.
Qed.

Lemma ifPresent_refused {A} (p : option A) (d : Desc) (conv : A -> float64)
    (m s : string) (w : World) :
  ValidString m && ValidString s = false ->
  ifPresent p (fun x => sendMetric d (conv x) [m; s]) w
  = (tt, complain (List.length (optMetric p (fun x => mkMetric d (conv x) [m; s]))) w).
Proof.
  intros H. destruct p as [x|]; simpl.
  - apply sendMetric_refused. exact H.
  - unfold ret. rewrite complain_zero. reflexivity.
Qed.

Lemma collectData_refused (c : NetatmoCollector) (device : Device) (st : string) (w : World)
    (lm : Z) :
  LastMeasure (Dashboard device) = Some lm ->
  dataAge (clock c (ticks w)) lm <= StaleThreshold c ->
  ValidString (moduleName_of device) && ValidString st = false ->
  collectData c device st w
  = (tt, complain (List.length (freshLeafMetrics device st lm)) (tick w)).
Proof.
  unfold collectData, dataAge, freshLeafMetrics. intros Hlm H Hbad. rewrite Hlm.
  unfold bind at 1. unfold now_. cbv zeta. fold (tick w).
  destruct (Z.ltb_spec (StaleThreshold c) (Sub (clock c (ticks w)) (time_Unix lm))); [lia|].
  erewrite bind_run by (apply sendMetric_refused; exact Hbad).
  do 13 (erewrite bind_run by (apply ifPresent_refused; exact Hbad)).
  rewrite ifPresent_refused by exact Hbad.
  repeat rewrite complain_complain.
  f_equal. f_equal. simpl List.length. repeat rewrite length_app. simpl List.length. lia.
Qed.

(** A leaf within the stale threshold whose module or station name is not
    valid UTF-8 sends nothing: each of its metrics, between two and fifteen,
    is refused and leaves one error entry in the log, and every entry names
    the "updated" descriptor, whichever metric was refused. *)
Theorem collectData_refuses_invalid_labels
    (c : NetatmoCollector) (device : Device) (st : string) (w : World) (lm : Z) :
  LastMeasure (Dashboard device) = Some lm ->
  dataAge (clock c (ticks w)) lm <= StaleThreshold c ->
  ValidString (moduleName_of device) && ValidString st = false ->
  exists k,
    (2 <= k <= 15)%nat /\
    k = List.length (freshLeafMetrics device st lm) /\
    mChan (snd (collectData c device st w)) = mChan w /\
    logged (snd (collectData c device st w))
    = logged w ++ repeat (Errorf (ErrorCreatingMetric updatedDesc)) k.
Proof.
  intros Hlm Hage Hbad.
  rewrite (collectData_refused c device st w lm Hlm Hage Hbad).
  exists (List.length (freshLeafMetrics device st lm)).
  split; [|repeat split].
  unfold freshLeafMetrics. cbv zeta. simpl List.length. repeat rewrite length_app.
  simpl List.length.
  repeat match goal with
         | |- context [List.length (optMetric ?p ?f)] =>
           generalize (optMetric_length p f);
           generalize (List.length (optMetric p f)); intros ? ?
         end.
  lia.
Qed.

Lemma collectData_refuses_invalid_labels_witness :
  LastMeasure (Dashboard ex_misnamed) = Some ex_lastMeasure /\
  dataAge (clock ex_cached (ticks ex_world)) ex_lastMeasure <= StaleThreshold ex_cached /\
  ValidString (moduleName_of ex_misnamed) && ValidString "Home" = false /\
  exists k,
    (2 <= k <= 15)%nat /\
    k = List.length (freshLeafMetrics ex_misnamed "Home" ex_lastMeasure) /\
    mChan (snd (collectData ex_cached ex_misnamed "Home" ex_world)) = mChan ex_world /\
    logged (snd (collectData ex_cached ex_misnamed "Home" ex_world))
    = logged ex_world ++ repeat (Errorf (ErrorCreatingMetric updatedDesc)) k.
Proof.
  assert (Hage : dataAge (clock ex_cached (ticks ex_world)) ex_lastMeasure
                 <= StaleThreshold ex_cached) by (vm_compute; discriminate).
  split; [reflexivity|]. split; [exact Hage|]. split; [reflexivity|].
  exact (collectData_refuses_invalid_labels ex_cached ex_misnamed "Home" ex_world
           ex_lastMeasure eq_refl Hage eq_refl).
Defined.

(** ** Only declared, well-formed metrics *)

Lemma adds_sendMetric_described (d : Desc) (v : float64) (ls : list string) :
  In d Describe ->
  adds (fun m => In (desc m) Describe /\ wellFormed m) (sendMetric d v ls).
Proof.
  intros Hd w. unfold sendMetric, NewConstMetric.
  destruct ((List.length ls =? List.length (variableLabels d))%nat && forallb ValidString ls)
    eqn:E.
  - exists [mkMetric d v ls]. simpl. split; [reflexivity|].
    constructor; [|constructor].
    apply andb_prop in E. destruct E as [E1 E2]. apply Nat.eqb_eq in E1.
    unfold wellFormed. simpl. auto.
  - exists []. simpl. rewrite app_nil_r. auto.
Qed.

Ltac described := unfold Describe; simpl; tauto.

Lemma adds_collectData_described (c : NetatmoCollector) (device : Device) (st : string) :
  adds (fun m => In (desc m) Describe /\ wellFormed m) (collectData c device st).
Proof.
  unfold collectData.
  destruct (LastMeasure (Dashboard device)) as [lm|]; [|auto with adds].
  apply adds_bind; [auto with adds|]. intros t. cbv zeta.
  destruct (StaleThreshold c <? Sub t (time_Unix lm)); [auto with adds|].
  repeat (apply adds_bind;
          [first [apply adds_sendMetric_described
                 | apply adds_ifPresent; intros ? ?; apply adds_sendMetric_described];
           described
          | intros _]).
  apply adds_ifPresent; intros ? ?; apply adds_sendMetric_described. described.
Qed.

(** Whatever the snapshot, a scrape sends only metrics of descriptors that
    [Describe] declares, each with as many label values as its descriptor
    has labels and with valid UTF-8 in every label value; and the twenty
    descriptors of [Describe] have pairwise distinct names. *)
Theorem Collect_sends_only_described_metrics (c : NetatmoCollector) (w : World) :
  (exists ms,
     mChan (snd (Collect c w)) = mChan w ++ ms /\
     Forall (fun m => In (desc m) Describe /\ wellFormed m) ms) /\
  List.length Describe = 20%nat /\
  NoDup (map fqName Describe).
Proof.
  split; [|split; [reflexivity|]].
  - revert w. change (adds (fun m => In (desc m) Describe /\ wellFormed m) (Collect c)).
    unfold Collect.
    apply adds_bind; [auto with adds|]. intros now. cbv zeta.
    do 5 (apply adds_bind; [apply adds_sendMetric_described; described|intros _]).
    apply adds_bind; [|intros; apply adds_ret].
    apply adds_ifPresent. intros data _.
    apply adds_forRange. intros dev _.
    apply adds_bind; [apply adds_collectData_described|]. intros _.
    apply adds_forRange. intros module _. apply adds_collectData_described.
  - vm_compute.
    repeat (constructor;
            [intros H; repeat (destruct H as [H|H]; [discriminate H|]); exact H|]).
    constructor.
Qed.

(** ** The names and labels of one leaf *)

Lemma distinctWithin_last (m : Metric) :
  distinctWithin [metricName m] [m].
Proof.
  unfold distinctWithin. simpl. split.
  - apply incl_refl.
  - constructor; [simpl; tauto|constructor].
Qed.

Lemma distinctWithin_cons (m : Metric) (rest : list Metric) (L : list string) :
  distinctWithin L rest -> ~ In (metricName m) L ->
  distinctWithin (metricName m :: L) (m :: rest).
Proof.
  unfold distinctWithin. intros [Hi Hn] Hnot. simpl. split.
  - intros x [Hx|Hx]; [left; exact Hx|right; apply Hi; exact Hx].
  - constructor; [|exact Hn]. intros Hin. apply Hnot. apply Hi. exact Hin.
Qed.

Lemma distinctWithin_opt {A} (p : option A) (f : A -> Metric) (n : string)
    (rest : list Metric) (L : list string) :
  (forall x, metricName (f x) = n) ->
  distinctWithin L rest -> ~ In n L ->
  distinctWithin (n :: L) (optMetric p f ++ rest).
Proof.
  intros Hf Hd Hnot. destruct p as [x|]; simpl.
  - rewrite <- (Hf x). apply distinctWithin_cons; [exact Hd|]. rewrite Hf. exact Hnot.
  - destruct Hd as [Hi Hn]. split; [|exact Hn].
    intros y Hy. right. apply Hi. exact Hy.
Qed.

Ltac not_among :=
  let H := fresh "H" in
  vm_compute; intros H; repeat (destruct H as [H|H]; [discriminate H|]); exact H.

Lemma freshLeafMetrics_distinct (device : Device) (st : string) (lm : Z) :
  distinctWithin (map fqName leafDescsInOrder) (freshLeafMetrics device st lm).
Proof.
  unfold freshLeafMetrics, leafDescsInOrder. cbv zeta. simpl map.
  apply (distinctWithin_cons (mkMetric updatedDesc _ _)); [|not_among].
  do 8 (apply distinctWithin_opt; [intros; reflexivity| |not_among]).
  do 3 (apply distinctWithin_opt; [intros; reflexivity| |not_among]).
  do 2 (apply distinctWithin_opt; [intros; reflexivity| |not_among]).
  apply (distinctWithin_last (mkMetric lastMeasureUtcDesc _ _)).
Qed.

Lemma moduleName_of_not_empty (device : Device) : moduleName_of device <> ""%string.
Proof.
  unfold moduleName_of.
  destruct (String.eqb_spec (ModuleName device) ""%string) as [E|E].
  - simpl. discriminate.
  - exact E.
Qed.

(** Whatever a leaf sends, in every case of freshness and of label
    validity, its metrics have pairwise distinct names, all among the fifteen
    per-sensor names, and all carry the same pair of label values. *)
Theorem collectData_distinct_names
    (c : NetatmoCollector) (device : Device) (st : string) (w : World) :
  exists ms,
    mChan (snd (collectData c device st w)) = mChan w ++ ms /\
    NoDup (map metricName ms) /\
    incl (map metricName ms) (map fqName leafDescsInOrder) /\
    Forall (fun m => labelValues m = [moduleName_of device; st]) ms.
Proof.
  destruct (adds_collectData c device st w) as [ms [E F]].
  exists ms. split; [exact E|].
  assert (Hd : distinctWithin (map fqName leafDescsInOrder) ms).
  { assert (Hnil : distinctWithin (map fqName leafDescsInOrder) [])
      by (split; [intros x []|constructor]).
    destruct (LastMeasure (Dashboard device)) as [lm|] eqn:Hlm.
    - destruct (Z_le_gt_dec (dataAge (clock c (ticks w)) lm) (StaleThreshold c)) as [Hle|Hgt].
      + destruct (ValidString (moduleName_of device) && ValidString st) eqn:Hv.
        * apply andb_prop in Hv. destruct Hv as [Hm Hs].
          rewrite (collectData_fresh c device st w lm Hlm Hle Hm Hs) in E.
          simpl in E. apply app_inv_head in E. rewrite <- E.
          apply freshLeafMetrics_distinct.
        * rewrite (collectData_refused c device st w lm Hlm Hle Hv) in E.
          simpl in E. rewrite <- (app_nil_r (mChan w)) in E at 1.
          apply app_inv_head in E. rewrite <- E. exact Hnil.
      + rewrite (collectData_stale c device st w lm Hlm) in E by lia.
        simpl in E. rewrite <- (app_nil_r (mChan w)) in E at 1.
        apply app_inv_head in E. rewrite <- E. exact Hnil.
    - rewrite (collectData_no_data c device st w Hlm) in E.
      simpl in E. rewrite <- (app_nil_r (mChan w)) in E at 1.
      apply app_inv_head in E. rewrite <- E. exact Hnil. }
  destruct Hd as [Hi Hn]. split; [exact Hn|]. split; [exact Hi|].
  eapply Forall_impl; [|exact F]. intros m [_ Hl]. exact Hl.
Qed.

(** The module label of a per-sensor metric is never empty: every metric a
    scrape sends after the five self-health metrics has exactly two label
    values, the first of them a non-empty module name. *)
Theorem Collect_module_label_not_empty (c : NetatmoCollector) (w : World) :
  exists rest,
    mChan (snd (Collect c w)) = mChan w ++ selfHealthMetrics c ++ rest /\
    Forall (fun m => exists moduleName stationName,
                       labelValues m = [moduleName; stationName] /\
                       moduleName <> ""%string) rest.
Proof.
  destruct (Collect_self_health_first c w) as [rest [E F]].
  exists rest. split; [exact E|].
  eapply Forall_impl; [|exact F].
  intros m (data & dev & leaf & _ & _ & _ & _ & Hl).
  exists (moduleName_of leaf), (StationName dev). split; [exact Hl|].
  apply moduleName_of_not_empty.
Qed.

(** ** Actions that send the same *)

Lemma same_ret {A} (a : A) : sameOutput (ret a) (ret a).
Proof.
  intros w1 w2 H. simpl. repeat split; [exact H|].
  exists []. rewrite !app_nil_r. auto.
Qed.

Lemma same_log (e1 e2 : LogEntry) : sameOutput (log e1) (log e2).
Proof.
  intros w1 w2 H. simpl. repeat split; [exact H|].
  exists []. rewrite !app_nil_r. auto.
Qed.

Lemma same_now (c1 c2 : NetatmoCollector) :
  clock c1 = clock c2 -> sameOutput (now_ c1) (now_ c2).
Proof.
  intros Hc w1 w2 H. simpl. rewrite Hc, H. repeat split.
  exists []. rewrite !app_nil_r. auto.
Qed.

Lemma same_sendMetric (d : Desc) (v : float64) (ls : list string) :
  sameOutput (sendMetric d v ls) (sendMetric d v ls).
Proof.
  intros w1 w2 H. unfold sendMetric. destruct (NewConstMetric d v ls) as [m|]; simpl.
  - repeat split; [exact H|]. exists [m]. auto.
  - repeat split; [exact H|]. exists []. rewrite !app_nil_r. auto.
Qed.

Lemma same_bind {A B} (m1 m2 : M A) (k1 k2 : A -> M B) :
  sameOutput m1 m2 -> (forall a, sameOutput (k1 a) (k2 a)) ->
  sameOutput (bind m1 k1) (bind m2 k2).
Proof.
  intros Hm Hk w1 w2 H. unfold bind.
  destruct (Hm w1 w2 H) as (Ha & Ht & ms & E1 & E2).
  destruct (m1 w1) as [a1 u1]. destruct (m2 w2) as [a2 u2]. simpl in *. subst a2.
  destruct (Hk a1 u1 u2 Ht) as (Hb & Ht' & ms' & E1' & E2').
  repeat split; [exact Hb|exact Ht'|].
  exists (ms ++ ms'). rewrite E1', E2', E1, E2, !app_assoc. auto.
Qed.

Lemma same_ifPresent {A} (p : option A) (b1 b2 : A -> M unit) :
  (forall x, sameOutput (b1 x) (b2 x)) -> sameOutput (ifPresent p b1) (ifPresent p b2).
Proof.
  intros H. destruct p as [x|]; simpl; [apply H|apply same_ret].
Qed.

Lemma same_forRange {A} (l : list A) (b1 b2 : A -> M unit) :
  (forall x, sameOutput (b1 x) (b2 x)) -> sameOutput (forRange l b1) (forRange l b2).
Proof.
  intros H. induction l as [|x rest IH]; simpl.
  - apply same_ret.
  - apply same_bind; [apply H|]. intros _. exact IH.
Qed.

Lemma same_collectData (c1 c2 : NetatmoCollector) (device : Device) (st : string) :
  clock c1 = clock c2 -> StaleThreshold c1 = StaleThreshold c2 ->
  sameOutput (collectData c1 device st) (collectData c2 device st).
Proof.
  intros Hc Hs. unfold collectData.
  destruct (LastMeasure (Dashboard device)) as [lm|]; [|apply same_log].
  apply same_bind; [apply same_now; exact Hc|]. intros t. cbv zeta. rewrite Hs.
  destruct (StaleThreshold c2 <? Sub t (time_Unix lm)); [apply same_log|].
  repeat (apply same_bind;
          [first [apply same_sendMetric
                 | apply same_ifPresent; intros ?; apply same_sendMetric]
          | intros _]).
  apply same_ifPresent; intros ?; apply same_sendMetric.
Qed.

Lemma same_collectLeaves (c1 c2 : NetatmoCollector) (data : DeviceCollection) :
  clock c1 = clock c2 -> StaleThreshold c1 = StaleThreshold c2 ->
  sameOutput (collectLeaves c1 data) (collectLeaves c2 data).
Proof.
  intros Hc Hs. unfold collectLeaves.
  apply same_forRange. intros dev. cbv zeta.
  apply same_bind; [apply same_collectData; assumption|]. intros _.
  apply same_forRange. intros module. apply same_collectData; assumption.
Qed.

(** Stale but valid data stays served: after a refresh whose fetch failed,
    a scrape reports up as 0 and, after the five self-health metrics, sends
    exactly the per-sensor metrics it would have sent without that refresh. *)
Theorem failed_refresh_keeps_serving
    (c : NetatmoCollector) (now : Time) (w w1 : World) (e : error) :
  snd (ReadFunction c (reads w)) = Some e ->
  exists rest,
    mChan (snd (Collect c w1)) = mChan w1 ++ selfHealthMetrics c ++ rest /\
    mChan (snd (Collect (fst (RefreshData c now w)) w1))
    = mChan w1 ++ selfHealthMetrics (fst (RefreshData c now w)) ++ rest /\
    nth_error (selfHealthMetrics (fst (RefreshData c now w))) 0
    = Some (mkMetric netatmoUpDesc f64_zero []).
Proof.
  intros He.
  pose proof (RefreshData_fields c now w) as Hf. cbv zeta in Hf.
  pose proof (RefreshData_frame c now w) as Hfr. cbv zeta in Hfr.
  destruct Hf as (_ & Herr & _ & Hcd & _).
  destruct Hfr as (_ & Hst & _ & Hck & _).
  rewrite He in Herr, Hcd. simpl in Hcd.
  set (c' := fst (RefreshData c now w)) in *.
  assert (Hsame : sameOutput (ifPresent (cachedData c) (collectLeaves c))
                             (ifPresent (cachedData c') (collectLeaves c'))).
  { rewrite Hcd. apply same_ifPresent. intros data.
    apply same_collectLeaves; congruence. }
  destruct (Hsame (emit (selfHealthMetrics c) (tick w1))
                  (emit (selfHealthMetrics c') (tick w1)) eq_refl)
    as (_ & _ & ms & E1 & E2).
  exists ms. rewrite !Collect_leaves, E1, E2. simpl mChan.
  rewrite <- !app_assoc. repeat split.
  unfold selfHealthMetrics. simpl. rewrite Herr. simpl. rewrite orb_true_r. reflexivity.
Qed.

Lemma failed_refresh_keeps_serving_witness :
  snd (ReadFunction ex_failing (reads ex_world)) = Some "connection refused"%string /\
  exists rest,
    mChan (snd (Collect ex_failing ex_world))
    = mChan ex_world ++ selfHealthMetrics ex_failing ++ rest /\
    mChan (snd (Collect (fst (RefreshData ex_failing (ex_clock 61) ex_world)) ex_world))
    = mChan ex_world
      ++ selfHealthMetrics (fst (RefreshData ex_failing (ex_clock 61) ex_world)) ++ rest /\
    nth_error (selfHealthMetrics (fst (RefreshData ex_failing (ex_clock 61) ex_world))) 0
    = Some (mkMetric netatmoUpDesc f64_zero []).
Proof.
  split; [reflexivity|].
  exact (failed_refresh_keeps_serving ex_failing (ex_clock 61) ex_world ex_world
           "connection refused"%string eq_refl).
Defined.

(** ** The cache over a sequence of refreshes *)

Lemma refreshes_cache (nows : list Time) :
  forall (c : NetatmoCollector) (w : World),
  let c' := fst (refreshes c nows w) in
  (cachedData c' = cachedData c /\
   cacheTimestamp c' = cacheTimestamp c /\
   forall k, (k < List.length nows)%nat -> snd (ReadFunction c (reads w + k)%nat) <> None)
  \/
  (exists pre now post,
     nows = pre ++ now :: post /\
     snd (ReadFunction c (reads w + List.length pre)%nat) = None /\
     cachedData c' = fst (ReadFunction c (reads w + List.length pre)%nat) /\
     cacheTimestamp c' = now /\
     forall k, (k < List.length post)%nat ->
       snd (ReadFunction c (reads w + List.length pre + 1 + k)%nat) <> None).
Proof.
  induction nows as [|now rest IH]; intros c w c'.
  - left. repeat split. intros k Hk. simpl in Hk. lia.
  - subst c'. rewrite refreshes_cons.
    pose proof (RefreshData_fields c now w) as Hf. cbv zeta in Hf.
    pose proof (RefreshData_frame c now w) as Hfr. cbv zeta in Hfr.
    destruct Hf as (_ & _ & Hct & Hcd & _).
    destruct Hfr as (_ & _ & Hrf & _ & Hreads & _).
    specialize (IH (fst (RefreshData c now w)) (snd (RefreshData c now w))).
    cbv zeta in IH. rewrite Hrf, Hreads in IH.
    destruct IH as [(Hd & Ht & Hall)|(pre & now' & post & Hsplit & Hok & Hd & Ht & Hall)].
    + destruct (snd (ReadFunction c (reads w))) as [e|] eqn:Herr.
      * left. simpl in Hct, Hcd. repeat split; try congruence.
        intros k Hk. destruct k as [|k'].
        -- rewrite Nat.add_0_r. congruence.
        -- replace (reads w + S k')%nat with (S (reads w) + k')%nat by lia.
           apply Hall. simpl in Hk. lia.
      * right. exists [], now, rest. simpl in Hct, Hcd. simpl List.length.
        rewrite Nat.add_0_r. repeat split; try congruence.
        intros k Hk.
        replace (reads w + 1 + k)%nat with (S (reads w) + k)%nat by lia.
        apply Hall. exact Hk.
    + right. exists (now :: pre), now', post. simpl List.length.
      replace (reads w + S (List.length pre))%nat
        with (S (reads w) + List.length pre)%nat by lia.
      repeat split; try assumption.
      simpl. congruence.
Qed.

(** After any sequence of refreshes of a new collector the cache is that of
    the last fetch that returned no error: either every fetch failed and
    there is no snapshot and a zero cache timestamp, or the snapshot is what
    the last successful fetch returned and the cache timestamp is the
    attempt time of that refresh, every later fetch having failed. *)
Theorem cache_is_last_success
    (readFunction : nat -> FetchResult) (refreshInterval staleDuration : Duration)
    (time_Now : nat -> Time) (nows : list Time) (w : World) :
  let c' := fst (refreshes (New readFunction refreshInterval staleDuration time_Now) nows w) in
  (cachedData c' = None /\
   cacheTimestamp c' = zeroTime /\
   forall k, (k < List.length nows)%nat -> snd (readFunction (reads w + k)%nat) <> None)
  \/
  (exists pre now post,
     nows = pre ++ now :: post /\
     snd (readFunction (reads w + List.length pre)%nat) = None /\
     cachedData c' = fst (readFunction (reads w + List.length pre)%nat) /\
     cacheTimestamp c' = now /\
     forall k, (k < List.length post)%nat ->
       snd (readFunction (reads w + List.length pre + 1 + k)%nat) <> None).
Proof.
  exact (refreshes_cache nows (New readFunction refreshInterval staleDuration time_Now) w).
Qed.

Lemma refreshes_frame (nows : list Time) :
  forall (c : NetatmoCollector) (w : World),
  fetchCalls (snd (refreshes c nows w)) = fetchCalls w ++ nows /\
  ticks (snd (refreshes c nows w)) = (ticks w + 2 * List.length nows)%nat /\
  mChan (snd (refreshes c nows w)) = mChan w /\
  RefreshInterval (fst (refreshes c nows w)) = RefreshInterval c /\
  StaleThreshold (fst (refreshes c nows w)) = StaleThreshold c.
Proof.
  induction nows as [|now rest IH]; intros c w.
  - simpl. rewrite app_nil_r. repeat split. lia.
  - rewrite refreshes_cons.
    pose proof (RefreshData_frame c now w) as Hfr. cbv zeta in Hfr.
    destruct Hfr as (Hi & Hs & _ & _ & _ & Ht & Hm & Hf).
    destruct (IH (fst (RefreshData c now w)) (snd (RefreshData c now w)))
      as (IH1 & IH2 & IH3 & IH4 & IH5).
    rewrite IH1, IH2, IH3, IH4, IH5, Hf, Ht, Hm, Hi, Hs. simpl List.length.
    rewrite <- app_assoc. repeat split. lia.
Qed.

(** Every refresh of a sequence, successful or not, calls the fetch
    function exactly once, with its own attempt time already stored, and
    reads the clock exactly twice; refreshes send nothing on the metric
    channel and leave the configured interval and threshold alone. *)
Theorem refreshes_fetch_once_each (c : NetatmoCollector) (nows : list Time) (w : World) :
  fetchCalls (snd (refreshes c nows w)) = fetchCalls w ++ nows /\
  ticks (snd (refreshes c nows w)) = (ticks w + 2 * List.length nows)%nat /\
  mChan (snd (refreshes c nows w)) = mChan w /\
  RefreshInterval (fst (refreshes c nows w)) = RefreshInterval c /\
  StaleThreshold (fst (refreshes c nows w)) = StaleThreshold c.
Proof. exact (refreshes_frame nows c w). Qed.

(** ** The trigger after a refresh *)

(** A refresh, failed or not, moves the trigger's clock: after a refresh
    at [now] a scrape whose clock reads [t] starts the next refresh exactly
    when [t - now] has reached the refresh interval, so with a positive
    interval a scrape at the very instant of the attempt starts none. *)
Theorem refresh_then_scrape_trigger (c : NetatmoCollector) (now : Time) (w w1 : World) :
  int64_range (RefreshInterval c) -> minDuration < RefreshInterval c ->
  let c' := fst (RefreshData c now w) in
  let t := clock c (ticks w1) in
  (fst (Collect c' w1) = Some t <-> RefreshInterval c <= t - now) /\
  (fst (Collect c' w1) = None <-> t - now < RefreshInterval c) /\
  (0 < RefreshInterval c -> t = now -> fst (Collect c' w1) = None).
Proof.
  intros Hr Hmin c' t.
  pose proof (RefreshData_fields c now w) as Hf. cbv zeta in Hf.
  pose proof (RefreshData_frame c now w) as Hfr. cbv zeta in Hfr.
  destruct Hf as (Hlr & _). destruct Hfr as (Hi & _ & _ & Hck & _).
  fold c' in Hlr, Hi, Hck.
  rewrite Collect_spawned. rewrite Hlr, Hi, Hck. fold t.
  assert (Hiff : RefreshInterval c <= Sub t now <-> RefreshInterval c <= t - now).
  { apply Sub_ge_iff. unfold int64_range in Hr. unfold minDuration, maxDuration in *. lia. }
  destruct (Z.leb_spec (RefreshInterval c) (Sub t now)) as [H|H].
  - repeat split; intros; try reflexivity; try discriminate; try lia.
  - repeat split; intros; try reflexivity; try discriminate; try lia.
Qed.

Lemma refresh_then_scrape_trigger_witness :
  int64_range (RefreshInterval ex_failing) /\
  minDuration < RefreshInterval ex_failing /\
  fst (Collect (fst (RefreshData ex_failing (ex_clock 61) ex_world)) (mkWorld 70 [] [] []))
  = None.
Proof.
  assert (H : int64_range (RefreshInterval ex_failing)) by (vm_compute; split; discriminate).
  assert (Hmin : minDuration < RefreshInterval ex_failing) by (vm_compute; reflexivity).
  split; [exact H|]. split; [exact Hmin|].
  apply (proj1 (proj2 (refresh_then_scrape_trigger ex_failing (ex_clock 61) ex_world
                         (mkWorld 70 [] [] []) H Hmin))).
  vm_compute. reflexivity.
Defined.

(** ** Times as gauge values *)

Lemma time_Unix_IsZero (sec : Z) :
  int64_range sec -> IsZero (time_Unix sec) = (sec =? internalToUnix).
Proof.
  unfold int64_range, minInt64, maxInt64, IsZero, time_Unix, wrap64, internalToUnix, Second.
  assert (Ek : unixToInternal = 62135596800) by reflexivity. rewrite Ek.
  intros H.
  destruct (Z_lt_ge_dec (sec + 62135596800 + 2 ^ 63) (2 ^ 64)) as [Hlt|Hge].
  - rewrite Z.mod_small by lia.
    match goal with
    | |- (?a =? ?b) = (?x =? ?y) =>
      destruct (Z.eqb_spec a b); destruct (Z.eqb_spec x y); try reflexivity; exfalso; lia
    end.
  - assert (Em : (sec + 62135596800 + 2 ^ 63) mod 2 ^ 64
                 = sec + 62135596800 + 2 ^ 63 - 2 ^ 64).
    { symmetry. apply Z.mod_unique_pos with (q := 1); lia. }
    rewrite Em.
    match goal with
    | |- (?a =? ?b) = (?x =? ?y) =>
      destruct (Z.eqb_spec a b); destruct (Z.eqb_spec x y); try reflexivity; exfalso; lia
    end.
Qed.

(** [convertTime] gives back the Unix seconds of an instant made from them:
    for every [int64] second count [sec], the gauge value of
    [time.Unix(sec, 0)] is [float64(sec)], except for the one count that
    denotes the zero time, -62135596800, which is reported as 0. *)
Theorem convertTime_time_Unix (sec : Z) :
  int64_range sec ->
  convertTime (time_Unix sec)
  = if sec =? -62135596800 then f64_zero else float64_of_Z sec.
Proof.
  intros H. unfold convertTime.
  rewrite (time_Unix_IsZero sec H).
  change internalToUnix with (-62135596800).
  destruct (sec =? -62135596800); [reflexivity|].
  rewrite (Unix_time_Unix sec H). reflexivity.
Qed.

Lemma convertTime_time_Unix_witness :
  int64_range ex_lastMeasure /\
  convertTime (time_Unix ex_lastMeasure) = float64_of_Z ex_lastMeasure.
Proof.
  assert (H : int64_range ex_lastMeasure) by (vm_compute; split; discriminate).
  split; [exact H|].
  exact (convertTime_time_Unix ex_lastMeasure H).
Defined.

(** ** Data age over time *)

Lemma Sub_mono (t t' u : Time) : t <= t' -> Sub t u <= Sub t' u.
Proof.
  unfold Sub, minDuration, maxDuration, minInt64, maxInt64. intros H.
  destruct (Z.ltb_spec (t - u) (- 2 ^ 63)); destruct (Z.ltb_spec (t' - u) (- 2 ^ 63));
    destruct (Z.ltb_spec (2 ^ 63 - 1) (t - u)); destruct (Z.ltb_spec (2 ^ 63 - 1) (t' - u));
    lia.
Qed.

(** Stale stays stale: a leaf skipped as stale at one clock reading is
    skipped at every clock reading that is not earlier, the saturation of
    durations notwithstanding. *)
Theorem stale_stays_stale
    (c : NetatmoCollector) (device : Device) (st : string) (w w2 : World) (lm : Z) :
  LastMeasure (Dashboard device) = Some lm ->
  StaleThreshold c < dataAge (clock c (ticks w)) lm ->
  time_le (clock c (ticks w)) (clock c (ticks w2)) ->
  mChan (snd (collectData c device st w)) = mChan w /\
  mChan (snd (collectData c device st w2)) = mChan w2.
Proof.
  intros Hlm Hstale Hle. split.
  - rewrite (collectData_stale c device st w lm Hlm Hstale). reflexivity.
  - rewrite (collectData_stale c device st w2 lm Hlm); [reflexivity|].
    unfold dataAge in *. unfold time_le in Hle.
    pose proof (Sub_mono _ _ (time_Unix lm) Hle). lia.
Qed.

Lemma stale_stays_stale_witness :
  LastMeasure (Dashboard ex_station) = Some ex_lastMeasure /\
  StaleThreshold ex_late < dataAge (clock ex_late (ticks ex_world)) ex_lastMeasure /\
  time_le (clock ex_late (ticks ex_world)) (clock ex_late (ticks (mkWorld 9 [] [] []))) /\
  mChan (snd (collectData ex_late ex_station "Home" ex_world)) = mChan ex_world /\
  mChan (snd (collectData ex_late ex_station "Home" (mkWorld 9 [] [] []))) = [].
Proof.
  assert (H1 : StaleThreshold ex_late < dataAge (clock ex_late (ticks ex_world)) ex_lastMeasure)
    by (vm_compute; reflexivity).
  assert (H2 : time_le (clock ex_late (ticks ex_world))
                 (clock ex_late (ticks (mkWorld 9 [] [] []))))
    by (vm_compute; discriminate).
  split; [reflexivity|]. split; [exact H1|]. split; [exact H2|].
  exact (stale_stays_stale ex_late ex_station "Home" ex_world (mkWorld 9 [] [] [])
           ex_lastMeasure eq_refl H1 H2).
Defined.

(** A measurement time that is not in the past is never stale: with a
    threshold that is not negative and valid label values, a leaf whose
    [lastMeasure] is at or after the clock reading sends its metrics, its
    data age being zero or negative. *)
Theorem measure_not_in_the_past_is_sent
    (c : NetatmoCollector) (device : Device) (st : string) (w : World) (lm : Z) :
  ValidString (moduleName_of device) = true -> ValidString st = true ->
  LastMeasure (Dashboard device) = Some lm ->
  time_le (clock c (ticks w)) (time_Unix lm) ->
  0 <= StaleThreshold c ->
  dataAge (clock c (ticks w)) lm <= 0 /\
  mChan (snd (collectData c device st w)) = mChan w ++ freshLeafMetrics device st lm.
Proof.
  intros Hm Hs Hlm Hle Hth.
  assert (Hage : dataAge (clock c (ticks w)) lm <= 0).
  { unfold dataAge. unfold time_le in Hle.
    pose proof (Sub_mono _ _ (time_Unix lm) Hle) as H.
    rewrite (Sub_exact (time_Unix lm) (time_Unix lm)) in H
      by (unfold minDuration, maxDuration, minInt64, maxInt64; lia).
    lia. }
  split; [exact Hage|].
  rewrite (collectData_fresh c device st w lm Hlm); auto. lia.
Qed.

Lemma measure_not_in_the_past_is_sent_witness :
  ValidString (moduleName_of ex_station) = true /\
  ValidString "Home" = true /\
  LastMeasure (Dashboard ex_station) = Some ex_lastMeasure /\
  time_le (clock (New ex_read_ok ex_interval ex_threshold ex_jumpy_clock)
             (ticks (mkWorld 2 [] [] [])))
          (time_Unix ex_lastMeasure) /\
  0 <= StaleThreshold (New ex_read_ok ex_interval ex_threshold ex_jumpy_clock) /\
  dataAge (clock (New ex_read_ok ex_interval ex_threshold ex_jumpy_clock)
             (ticks (mkWorld 2 [] [] []))) ex_lastMeasure <= 0 /\
  mChan (snd (collectData (New ex_read_ok ex_interval ex_threshold ex_jumpy_clock)
                ex_station "Home" (mkWorld 2 [] [] [])))
  = [] ++ freshLeafMetrics ex_station "Home" ex_lastMeasure.
Proof.
  assert (H1 : time_le (clock (New ex_read_ok ex_interval ex_threshold ex_jumpy_clock)
                          (ticks (mkWorld 2 [] [] [])))
                 (time_Unix ex_lastMeasure)) by (vm_compute; discriminate).
  assert (H2 : 0 <= StaleThreshold (New ex_read_ok ex_interval ex_threshold ex_jumpy_clock))
    by (vm_compute; discriminate).
  split; [reflexivity|]. split; [reflexivity|]. split; [reflexivity|].
  split; [exact H1|]. split; [exact H2|].
  exact (measure_not_in_the_past_is_sent
           (New ex_read_ok ex_interval ex_threshold ex_jumpy_clock)
           ex_station "Home" (mkWorld 2 [] [] []) ex_lastMeasure
           eq_refl eq_refl eq_refl H1 H2).
Defined.

(** ** From the first scrape to the first refresh *)

(** The life of a new collector, for a clock that reads no earlier than the
    Unix epoch: its first scrape starts a refresh at the clock reading and
    sends the five self-health metrics with up 0 and both times 0. Once
    that refresh is done, a scrape reports up 1 and the attempt time as both
    the last-refresh time and the cache time if the fetch returned no error,
    and otherwise up 0, the attempt time, cache time 0 and no per-sensor
    metric. *)
Theorem first_scrape_and_first_refresh
    (readFunction : nat -> FetchResult) (refreshInterval staleDuration : Duration)
    (time_Now : nat -> Time) (w w1 w2 : World) :
  int64_range refreshInterval ->
  time_le (time_Unix 0) (time_Now (ticks w)) ->
  let c0 := New readFunction refreshInterval staleDuration time_Now in
  let now := time_Now (ticks w) in
  let c1 := fst (RefreshData c0 now w1) in
  let took := Sub (time_Now (S (ticks w1))) (time_Now (ticks w1)) in
  fst (Collect c0 w) = Some now /\
  mChan (snd (Collect c0 w))
  = mChan w ++
    [ mkMetric netatmoUpDesc f64_zero [];
      mkMetric refreshIntervalDesc (Seconds refreshInterval) [];
      mkMetric refreshTimestampDesc f64_zero [];
      mkMetric refreshDurationDesc (Seconds 0) [];
      mkMetric cacheTimestampDesc f64_zero [] ] /\
  (snd (readFunction (reads w1)) = None ->
   exists rest,
     mChan (snd (Collect c1 w2))
     = mChan w2 ++
       [ mkMetric netatmoUpDesc f64_one [];
         mkMetric refreshIntervalDesc (Seconds refreshInterval) [];
         mkMetric refreshTimestampDesc (float64_of_Z (Unix now)) [];
         mkMetric refreshDurationDesc (Seconds took) [];
         mkMetric cacheTimestampDesc (float64_of_Z (Unix now)) [] ] ++ rest) /\
  (forall e, snd (readFunction (reads w1)) = Some e ->
     mChan (snd (Collect c1 w2))
     = mChan w2 ++
       [ mkMetric netatmoUpDesc f64_zero [];
         mkMetric refreshIntervalDesc (Seconds refreshInterval) [];
         mkMetric refreshTimestampDesc (float64_of_Z (Unix now)) [];
         mkMetric refreshDurationDesc (Seconds took) [];
         mkMetric cacheTimestampDesc f64_zero [] ]).
Proof.
  intros Hr Hnow c0 now c1 took.
  assert (Hnz : IsZero now = false).
  { unfold IsZero. apply Z.eqb_neq. unfold time_le in Hnow. fold now in Hnow.
    assert (E : time_Unix 0 = 62135596800000000000) by reflexivity. lia. }
  pose proof (RefreshData_fields c0 now w1) as Hf. cbv zeta in Hf.
  pose proof (RefreshData_frame c0 now w1) as Hfr. cbv zeta in Hfr.
  fold c1 in Hf, Hfr. simpl in Hf.
  destruct Hf as (Hlr & Herr & Hct & Hcd & Hdur).
  destruct Hfr as (Hi & _).
  split; [|split; [|split]].
  - rewrite Collect_spawned. simpl. fold now. fold zeroTime.
    rewrite (Sub_zeroTime_saturates now Hnow).
    unfold int64_range in Hr. unfold maxDuration.
    destruct (Z.leb_spec refreshInterval maxInt64); [reflexivity|lia].
  - rewrite (Collect_no_cache c0 w eq_refl). reflexivity.
  - intros Hok. rewrite Hok in *. simpl in Hct, Hcd.
    destruct (Collect_self_health_first c1 w2) as [rest [E _]].
    exists rest. rewrite E. unfold selfHealthMetrics, convertTime.
    rewrite Hlr, Herr, Hct, Hdur, Hi, Hnz. reflexivity.
  - intros e He. rewrite He in *. simpl in Hct, Hcd.
    rewrite (Collect_no_cache c1 w2 Hcd). unfold selfHealthMetrics, convertTime.
    rewrite Hlr, Herr, Hct, Hdur, Hi, Hnz. reflexivity.
Qed.

Lemma first_scrape_and_first_refresh_witness :
  int64_range ex_interval /\
  time_le (time_Unix 0) (ex_clock (ticks ex_world)) /\
  fst (Collect (New ex_read_fail ex_interval ex_threshold ex_clock) ex_world)
  = Some (ex_clock 0) /\
  mChan (snd (Collect
                (fst (RefreshData (New ex_read_fail ex_interval ex_threshold ex_clock)
                        (ex_clock 0) ex_world))
                ex_world))
  = [ mkMetric netatmoUpDesc f64_zero [];
      mkMetric refreshIntervalDesc (Seconds ex_interval) [];
      mkMetric refreshTimestampDesc (float64_of_Z (Unix (ex_clock 0))) [];
      mkMetric refreshDurationDesc (Seconds (Sub (ex_clock 1) (ex_clock 0))) [];
      mkMetric cacheTimestampDesc f64_zero [] ].
Proof.
  assert (H : int64_range ex_interval) by (vm_compute; split; discriminate).
  assert (Hle : time_le (time_Unix 0) (ex_clock (ticks ex_world)))
    by (vm_compute; discriminate).
  split; [exact H|]. split; [exact Hle|]. split.
  - exact (proj1 (first_scrape_and_first_refresh ex_read_fail ex_interval ex_threshold
                    ex_clock ex_world ex_world ex_world H Hle)).
  - exact (proj2 (proj2 (proj2 (first_scrape_and_first_refresh ex_read_fail ex_interval
                                  ex_threshold ex_clock ex_world ex_world ex_world H Hle)))
             "connection refused"%string eq_refl).
Defined.

(** ** Modules below modules *)

Lemma bind_ext {A B} (m : M A) (k1 k2 : A -> M B) (w : World) :
  (forall a w', k1 a w' = k2 a w') -> bind m k1 w = bind m k2 w.
Proof. intros H. unfold bind. destruct (m w) as [a w']. apply H. Qed.

Lemma bind_run_eq {A B} (m1 m2 : M A) (k : A -> M B) (w : World) :
  m1 w = m2 w -> bind m1 k w = bind m2 k w.
Proof. intros H. unfold bind. rewrite H. reflexivity. Qed.

Lemma forRange_ext {A} (l : list A) (b1 b2 : A -> M unit) :
  (forall x w, b1 x w = b2 x w) -> forall w, forRange l b1 w = forRange l b2 w.
Proof.
  intros H. induction l as [|x rest IH]; intros w; simpl; [reflexivity|].
  unfold bind. rewrite H. destruct (b2 x w) as [u w']. apply IH.
Qed.

Lemma forRange_map {A B} (f : A -> B) (l : list A) (body : B -> M unit) :
  forall w, forRange (map f l) body w = forRange l (fun x => body (f x)) w.
Proof.
  induction l as [|x rest IH]; intros w; simpl; [reflexivity|].
  unfold bind. destruct (body (f x) w) as [u w']. apply IH.
Qed.

Lemma collectLeaves_twoLevels (c : NetatmoCollector) (data : DeviceCollection) (w : World) :
  collectLeaves c (twoLevels data) w = collectLeaves c data w.
Proof.
  unfold collectLeaves, twoLevels. simpl Devices.
  rewrite forRange_map. apply forRange_ext. intros dev w'. cbv zeta. simpl.
  apply bind_ext. intros _ w''.
  rewrite forRange_map. apply forRange_ext. intros module w3. reflexivity.
Qed.

(** A scrape visits the main devices and their directly linked modules and
    nothing below: cutting every module's own linked modules out of the
    cached snapshot changes neither the result of a scrape nor anything it
    does to the world. *)
Theorem Collect_ignores_nested_modules (c : NetatmoCollector) (w : World) :
  Collect (set_cachedData (option_map twoLevels (cachedData c)) c) w = Collect c w.
Proof.
  unfold Collect.
  apply bind_ext. intros now w1. cbv zeta.
  do 5 (apply bind_ext; intros _ ?).
  apply bind_run_eq.
  change (cachedData (set_cachedData (option_map twoLevels (cachedData c)) c))
    with (option_map twoLevels (cachedData c)).
  destruct (cachedData c) as [data|]; simpl option_map; simpl ifPresent; [|reflexivity].
  apply (collectLeaves_twoLevels c data).
Qed.

(** The module below a module of the nested sample is never visited: the
    scrape names the main unit and its module, and not the leaf below. *)
Example scenario_nested_module :
  map labelValues
      (mChan (snd (Collect (set_cachedData (Some ex_nested) ex_cached) ex_world)))
  = [ []; []; []; []; [];
      ["Indoor"; "Home"]; ["Indoor"; "Home"]; ["Indoor"; "Home"]; ["Indoor"; "Home"];
      ["Outdoor"; "Home"]; ["Outdoor"; "Home"] ]%string.
Proof. vm_compute. reflexivity. Qed.

(** ** Up and the two time gauges *)

Lemma refreshes_no_error_cache_current (nows : list Time) :
  forall (c : NetatmoCollector) (w : World),
  (lastRefreshError c = None -> cacheTimestamp c = lastRefresh c) ->
  lastRefreshError (fst (refreshes c nows w)) = None ->
  cacheTimestamp (fst (refreshes c nows w)) = lastRefresh (fst (refreshes c nows w)).
Proof.
  induction nows as [|now rest IH]; intros c w Hinv.
  - exact Hinv.
  - rewrite refreshes_cons. apply IH.
    pose proof (RefreshData_fields c now w) as Hf. cbv zeta in Hf.
    destruct Hf as (Hlr & Herr & Hct & _).
    intros Hnone. rewrite Herr in Hnone. rewrite Hnone in Hct. simpl in Hct.
    congruence.
Qed.

(** After any sequence of refreshes of a new collector, at whatever attempt
    times, a scrape that reports up as 1 reports the same value for the
    cache-updated time and for the last-refresh time: the snapshot it serves
    is the one of the most recent attempt. *)
Theorem up_one_means_cache_current
    (readFunction : nat -> FetchResult) (refreshInterval staleDuration : Duration)
    (time_Now : nat -> Time) (nows : list Time) (w0 w : World) :
  let c := fst (refreshes (New readFunction refreshInterval staleDuration time_Now) nows w0) in
  exists up attempted cached rest,
    mChan (snd (Collect c w))
    = mChan w ++
      [ mkMetric netatmoUpDesc up [];
        mkMetric refreshIntervalDesc (Seconds refreshInterval) [];
        mkMetric refreshTimestampDesc attempted [];
        mkMetric refreshDurationDesc (Seconds (lastRefreshDuration c)) [];
        mkMetric cacheTimestampDesc cached [] ] ++ rest /\
    (up = f64_one -> cached = attempted /\ cacheTimestamp c = lastRefresh c).
Proof.
  intros c.
  destruct (Collect_self_health_first c w) as [rest [E _]].
  destruct (refreshes_frame nows
              (New readFunction refreshInterval staleDuration time_Now) w0)
    as (_ & _ & _ & Hi & _).
  fold c in Hi. simpl in Hi.
  eexists _, _, _, rest. split.
  - rewrite E. unfold selfHealthMetrics. rewrite Hi. reflexivity.
  - intros Hup.
    assert (Hnone : lastRefreshError c = None).
    { destruct (IsZero (lastRefresh c)); simpl in Hup; [discriminate|].
      destruct (lastRefreshError c); simpl in Hup; [discriminate|reflexivity]. }
    assert (Hcur : cacheTimestamp c = lastRefresh c).
    { apply refreshes_no_error_cache_current; [|exact Hnone]. reflexivity. }
    rewrite Hcur. auto.
Qed.

(** * The up gauge, the staleness policy and the labels *)

(** ** The up gauge, between refreshes and during one *)

Lemma refreshStarted_fields (c : NetatmoCollector) (now : Time) (w : World) :
  let c1 := fst (refreshStarted c now w) in
  lastRefresh c1 = now /\
  lastRefreshError c1 = lastRefreshError c /\
  cachedData c1 = cachedData c /\
  cacheTimestamp c1 = cacheTimestamp c /\
  fetchCalls (snd (refreshStarted c now w)) = fetchCalls w /\
  fetchCalls (snd (RefreshData c now w))
  = fetchCalls (snd (refreshStarted c now w)) ++ [lastRefresh c1].
Proof.
  unfold refreshStarted, RefreshData, bind, log, now_, fetch, ret, reads. simpl.
  destruct (ReadFunction c (List.length (fetchCalls w))) as [devices [e|]]; simpl;
    repeat split.
Qed.

Lemma Collect_up_value (c : NetatmoCollector) (w : World) :
  exists rest,
    mChan (snd (Collect c w))
    = mChan w ++
      mkMetric netatmoUpDesc
        (if negb (IsZero (lastRefresh c)) && isNil (lastRefreshError c)
         then f64_one else f64_zero) []
      :: rest.
Proof.
  destruct (Collect_self_health_first c w) as [rest [E _]].
  eexists. rewrite E. unfold selfHealthMetrics. simpl. f_equal. f_equal. f_equal.
  unfold isNil.
  destruct (IsZero (lastRefresh c)), (notNil (lastRefreshError c)); reflexivity.
Qed.

(** C1, as the code has it. For every collector state a scrape sends the
    [netatmo_up] gauge first, with value 1 exactly when the last-attempt
    time is not the zero value and no error is stored, and 0 otherwise.
    Between refreshes of a new collector, made at non-zero attempt times,
    that is: 1 exactly when some refresh has succeeded and the most recent
    attempt returned no error, the never-refreshed collector giving 0.
    While a refresh is under way, its attempt time stored and its fetch not
    yet back, the value is 1 exactly when the attempt before it stored no
    error, whether or not any refresh has succeeded. *)
Theorem up_iff_attempted_and_no_error_stored
    (readFunction : nat -> FetchResult) (refreshInterval staleDuration : Duration)
    (time_Now : nat -> Time) (nows : list Time) (now : Time) (w0 w : World) :
  Forall (fun t => IsZero t = false) nows -> IsZero now = false ->
  let c0 := New readFunction refreshInterval staleDuration time_Now in
  let quiet := fst (refreshes c0 nows w0) in
  let busy := fst (refreshStarted quiet now (snd (refreshes c0 nows w0))) in
  let errs := fetchErrors readFunction (reads w0) (List.length nows) in
  (forall (c1 : NetatmoCollector) (w1 : World),
   exists rest,
     mChan (snd (Collect c1 w1))
     = mChan w1 ++
       mkMetric netatmoUpDesc
         (if negb (IsZero (lastRefresh c1)) && isNil (lastRefreshError c1)
          then f64_one else f64_zero) []
       :: rest) /\
  (exists rest,
     mChan (snd (Collect quiet w))
     = mChan w ++
       mkMetric netatmoUpDesc
         (if existsb isNil errs && isNil (last errs None) then f64_one else f64_zero) []
       :: rest) /\
  (exists rest,
     mChan (snd (Collect busy w))
     = mChan w ++
       mkMetric netatmoUpDesc (if isNil (last errs None) then f64_one else f64_zero) []
       :: rest) /\
  (lastRefresh busy = now /\
   cachedData busy = cachedData quiet /\
   fetchCalls (snd (RefreshData quiet now (snd (refreshes c0 nows w0))))
   = fetchCalls (snd (refreshes c0 nows w0)) ++ [lastRefresh busy]).
Proof.
  intros Hnz Hnow c0 quiet busy errs.
  assert (Hquiet : lastRefreshError quiet = last errs None /\
                   (nows <> [] -> IsZero (lastRefresh quiet) = false) /\
                   (nows = [] -> IsZero (lastRefresh quiet) = true)).
  { subst quiet errs. destruct nows as [|t rest].
    - simpl. repeat split; congruence.
    - pose proof (refreshes_last_attempt (t :: rest) c0 w0 Hnz) as H.
      cbv zeta in H. destruct H as [Hz He]; [congruence|].
      repeat split; [exact He|auto|congruence]. }
  destruct Hquiet as (Herr & Hzn & Hze).
  pose proof (refreshStarted_fields quiet now (snd (refreshes c0 nows w0))) as Hb.
  cbv zeta in Hb. fold busy in Hb.
  destruct Hb as (Hlr & Hbe & Hcd & _ & Hfc & Hcall).
  split; [exact Collect_up_value|]. split; [|split].
  - destruct (Collect_up_value quiet w) as [rest E]. exists rest. rewrite E.
    f_equal. f_equal. f_equal. rewrite Herr.
    destruct nows as [|t rest'].
    + rewrite Hze by reflexivity. reflexivity.
    + rewrite Hzn by congruence. simpl negb.
      assert (Hne : errs <> []) by (subst errs; simpl; congruence).
      pose proof (last_ok_ever_succeeded errs Hne) as Hev.
      destruct (isNil (last errs None)).
      * rewrite Hev; reflexivity.
      * rewrite !andb_false_r. reflexivity.
  - destruct (Collect_up_value busy w) as [rest E]. exists rest. rewrite E.
    rewrite Hlr, Hnow, Hbe, Herr. reflexivity.
  - rewrite Hcall, Hfc. auto.
Qed.

Lemma up_iff_attempted_and_no_error_stored_witness :
  Forall (fun t => IsZero t = false) [ex_clock 0; ex_clock 2] /\
  IsZero (ex_clock 70) = false /\
  (exists rest,
     mChan (snd (Collect
                   (fst (refreshes (New ex_read_once ex_interval ex_threshold ex_clock)
                           [ex_clock 0; ex_clock 2] ex_world))
                   ex_world))
     = [] ++ mkMetric netatmoUpDesc f64_zero [] :: rest) /\
  (exists rest,
     mChan (snd (Collect
                   (fst (refreshStarted
                           (fst (refreshes (New ex_read_once ex_interval ex_threshold ex_clock)
                                   [ex_clock 0; ex_clock 2] ex_world))
                           (ex_clock 70)
                           (snd (refreshes (New ex_read_once ex_interval ex_threshold ex_clock)
                                   [ex_clock 0; ex_clock 2] ex_world))))
                   ex_world))
     = [] ++ mkMetric netatmoUpDesc f64_zero [] :: rest).
Proof.
  assert (H : Forall (fun t => IsZero t = false) [ex_clock 0; ex_clock 2])
    by (repeat constructor).
  split; [exact H|]. split; [reflexivity|]. split.
  - exact (proj1 (proj2 (up_iff_attempted_and_no_error_stored ex_read_once ex_interval
                           ex_threshold ex_clock [ex_clock 0; ex_clock 2] (ex_clock 70)
                           ex_world ex_world H eq_refl))).
  - exact (proj1 (proj2 (proj2 (up_iff_attempted_and_no_error_stored ex_read_once
                                  ex_interval ex_threshold ex_clock
                                  [ex_clock 0; ex_clock 2] (ex_clock 70)
                                  ex_world ex_world H eq_refl)))).
Defined.

(** C1, as stated, fails while the first refresh of a new collector is
    under way: no refresh has completed, none has succeeded and nothing is
    cached, and the scrape sends up as 1. *)
Lemma up_is_one_during_the_first_refresh :
  fst (refreshes ex_new [] ex_world) = ex_new /\
  existsb isNil (fetchErrors ex_read_ok (reads ex_world) 0) = false /\
  cachedData (fst (refreshStarted ex_new (ex_clock 0) ex_world)) = None /\
  lastRefreshError (fst (refreshStarted ex_new (ex_clock 0) ex_world)) = None /\
  nth_error
    (mChan (snd (Collect (fst (refreshStarted ex_new (ex_clock 0) ex_world)) ex_world))) 0
  = Some (mkMetric netatmoUpDesc f64_one []).
Proof. repeat split; vm_compute; reflexivity. Qed.

(** ** The staleness policy, with the age in exact arithmetic *)

Lemma dataAge_exactAge (t : Time) (lm : Z) :
  int64_range lm -> lm + unixToInternal <= maxInt64 ->
  (minDuration <= exactAge t lm <= maxDuration -> dataAge t lm = exactAge t lm) /\
  (forall s : Duration, minDuration <= s < maxDuration ->
     (dataAge t lm <= s <-> exactAge t lm <= s)).
Proof.
  intros Hr Hk.
  assert (E : time_Unix lm = (lm + unixToInternal) * Second).
  { unfold time_Unix. rewrite wrap64_small; [reflexivity|].
    assert (Ek : unixToInternal = 62135596800) by reflexivity.
    unfold int64_range in *. unfold minInt64, maxInt64 in *. lia. }
  unfold dataAge, exactAge. rewrite E. split.
  - intros H. apply Sub_exact. exact H.
  - intros s Hs. apply Sub_le_iff. exact Hs.
Qed.

(** C2, as the code has it. A leaf sends its metrics exactly when its
    [lastMeasure] is present, its data age at the clock reading is at most
    the stale threshold, the bound included, and its module and station
    names are valid label values; it then sends all of them. In every other
    case it sends nothing and the loop over the leaves goes on with the
    remaining ones. The data age is the exact difference between the clock
    reading and the measurement time whenever that difference is a
    duration, and compares with any threshold below the greatest duration
    as the exact difference does, for every measurement time
    [time.Unix] represents without wrap-around. *)
Theorem staleness_policy (c : NetatmoCollector) (device : Device) (st : string) (w : World) :
  let t := clock c (ticks w) in
  let w' := snd (collectData c device st w) in
  let sent := exists lm, LastMeasure (Dashboard device) = Some lm /\
                         dataAge t lm <= StaleThreshold c /\
                         ValidString (moduleName_of device) = true /\
                         ValidString st = true in
  (mChan w' <> mChan w <-> sent) /\
  (forall lm, LastMeasure (Dashboard device) = Some lm ->
     dataAge t lm <= StaleThreshold c ->
     ValidString (moduleName_of device) = true -> ValidString st = true ->
     mChan w' = mChan w ++ freshLeafMetrics device st lm) /\
  (forall lm, LastMeasure (Dashboard device) = Some lm ->
     dataAge t lm = StaleThreshold c ->
     ValidString (moduleName_of device) = true -> ValidString st = true ->
     mChan w' = mChan w ++ freshLeafMetrics device st lm) /\
  (~ sent -> mChan w' = mChan w) /\
  (forall lm, int64_range lm -> lm + unixToInternal <= maxInt64 ->
     (minDuration <= exactAge t lm <= maxDuration -> dataAge t lm = exactAge t lm) /\
     (minDuration <= StaleThreshold c < maxDuration ->
      (dataAge t lm <= StaleThreshold c <-> exactAge t lm <= StaleThreshold c))) /\
  (forall rest,
     forRange (device :: rest) (fun leaf => collectData c leaf st) w
     = forRange rest (fun leaf => collectData c leaf st) w').
Proof.
  intros t w' sent.
  assert (Hfresh : forall lm, LastMeasure (Dashboard device) = Some lm ->
                     dataAge t lm <= StaleThreshold c ->
                     ValidString (moduleName_of device) = true -> ValidString st = true ->
                     mChan w' = mChan w ++ freshLeafMetrics device st lm).
  { intros lm Hlm Hage Hm Hs. subst w'.
    rewrite (collectData_fresh c device st w lm Hlm Hage Hm Hs). reflexivity. }
  assert (Hskip : ~ sent -> mChan w' = mChan w).
  { intros Hn. subst w'. destruct (LastMeasure (Dashboard device)) as [lm|] eqn:Hlm.
    - destruct (Z_le_gt_dec (dataAge t lm) (StaleThreshold c)) as [Hle|Hgt].
      + destruct (ValidString (moduleName_of device) && ValidString st) eqn:Hv.
        * exfalso. apply Hn. apply andb_prop in Hv. destruct Hv. exists lm. auto.
        * rewrite (collectData_refused c device st w lm Hlm Hle Hv). reflexivity.
      + rewrite (collectData_stale c device st w lm Hlm); [reflexivity|].
        fold t. lia.
    - rewrite (collectData_no_data c device st w Hlm). reflexivity. }
  split; [|split; [exact Hfresh|split; [|split; [exact Hskip|split]]]].
  - split.
    + intros Hne.
      destruct (LastMeasure (Dashboard device)) as [lm|] eqn:Hlm.
      * destruct (Z_le_gt_dec (dataAge t lm) (StaleThreshold c)) as [Hle|Hgt].
        -- destruct (ValidString (moduleName_of device)) eqn:Hm;
             destruct (ValidString st) eqn:Hs;
             try (exists lm; auto; fail);
             exfalso; apply Hne; apply Hskip;
             intros (lm' & _ & _ & Hm' & Hs'); congruence.
        -- exfalso. apply Hne. apply Hskip. intros (lm' & E & Hle & _).
           inversion E; subst. lia.
      * exfalso. apply Hne. apply Hskip. intros (lm' & E & _). discriminate.
    + intros (lm & Hlm & Hage & Hm & Hs). rewrite (Hfresh lm Hlm Hage Hm Hs).
      apply app_nonempty_neq. apply freshLeafMetrics_nonempty.
  - intros lm Hlm Hage. apply (Hfresh lm Hlm). lia.
  - intros lm Hr Hk. destruct (dataAge_exactAge t lm Hr Hk) as [H1 H2].
    split; [exact H1|]. intros Hs. apply H2. exact Hs.
  - intros rest. apply forRange_cons.
Qed.

Lemma staleness_policy_witness :
  LastMeasure (Dashboard ex_station) = Some ex_lastMeasure /\
  int64_range ex_lastMeasure /\
  ex_lastMeasure + unixToInternal <= maxInt64 /\
  minDuration <= StaleThreshold ex_cached < maxDuration /\
  exactAge (clock ex_cached (ticks ex_world)) ex_lastMeasure = 10 * Second /\
  ValidString (moduleName_of ex_station) = true /\
  ValidString "Home" = true /\
  mChan (snd (collectData ex_cached ex_station "Home" ex_world))
  = mChan ex_world ++ freshLeafMetrics ex_station "Home" ex_lastMeasure.
Proof.
  assert (Hr : int64_range ex_lastMeasure) by (vm_compute; split; discriminate).
  assert (Hk : ex_lastMeasure + unixToInternal <= maxInt64) by (vm_compute; discriminate).
  assert (Hs : minDuration <= StaleThreshold ex_cached < maxDuration)
    by (vm_compute; split; [discriminate|reflexivity]).
  assert (He : exactAge (clock ex_cached (ticks ex_world)) ex_lastMeasure
               <= StaleThreshold ex_cached) by (vm_compute; discriminate).
  split; [reflexivity|]. split; [exact Hr|]. split; [exact Hk|]. split; [exact Hs|].
  split; [reflexivity|]. split; [reflexivity|]. split; [reflexivity|].
  exact (proj1 (proj2 (staleness_policy ex_cached ex_station "Home" ex_world))
           ex_lastMeasure eq_refl
           (proj2 (proj2 (proj1 (proj2 (proj2 (proj2 (proj2
                     (staleness_policy ex_cached ex_station "Home" ex_world)))))
                     ex_lastMeasure Hr Hk) Hs) He)
           eq_refl eq_refl).
Defined.

(** C2, as stated, fails on two sample leaves of a collector with a
    threshold of three hundred seconds. The first was measured ten seconds
    before the clock reading and sends nothing, its name not being valid
    UTF-8. The second has the greatest [int64] as its measurement time,
    far after the clock reading, so that its age in exact arithmetic is
    far below the threshold; [time.Unix] wraps around, the code's data age
    is the greatest duration, and it sends nothing. *)
Lemma leaf_within_threshold_sends_nothing :
  (LastMeasure (Dashboard ex_misnamed) = Some ex_lastMeasure /\
   exactAge (clock ex_cached (ticks ex_world)) ex_lastMeasure = 10 * Second /\
   dataAge (clock ex_cached (ticks ex_world)) ex_lastMeasure = 10 * Second /\
   StaleThreshold ex_cached = 300 * Second /\
   mChan (snd (collectData ex_cached ex_misnamed "Home" ex_world)) = mChan ex_world) /\
  (LastMeasure (Dashboard ex_far) = Some maxInt64 /\
   ValidString (moduleName_of ex_far) = true /\
   exactAge (clock ex_cached (ticks ex_world)) maxInt64 < 0 /\
   dataAge (clock ex_cached (ticks ex_world)) maxInt64 = maxDuration /\
   mChan (snd (collectData ex_cached ex_far "Home" ex_world)) = mChan ex_world).
Proof. repeat split; vm_compute; reflexivity. Qed.

(** ** The labels, leaf by leaf *)

Lemma collectData_block (c : NetatmoCollector) (leaf : Device) (st : string) (w : World) :
  exists block,
    mChan (snd (collectData c leaf st w)) = mChan w ++ block /\ leafBlock leaf st block.
Proof.
  assert (Hnil : forall w', mChan w' = mChan w ->
            exists block, mChan w' = mChan w ++ block /\ leafBlock leaf st block).
  { intros w' E. exists []. rewrite app_nil_r. split; [exact E|left; reflexivity]. }
  destruct (LastMeasure (Dashboard leaf)) as [lm|] eqn:Hlm.
  - destruct (Z_le_gt_dec (dataAge (clock c (ticks w)) lm) (StaleThreshold c)) as [Hle|Hgt].
    + destruct (ValidString (moduleName_of leaf) && ValidString st) eqn:Hv.
      * apply andb_prop in Hv. destruct Hv as [Hm Hs].
        rewrite (collectData_fresh c leaf st w lm Hlm Hle Hm Hs).
        exists (freshLeafMetrics leaf st lm). split; [reflexivity|].
        right. exists lm. auto.
      * apply Hnil. rewrite (collectData_refused c leaf st w lm Hlm Hle Hv). reflexivity.
    + apply Hnil. rewrite (collectData_stale c leaf st w lm Hlm) by lia. reflexivity.
  - apply Hnil. rewrite (collectData_no_data c leaf st w Hlm). reflexivity.
Qed.

Lemma forRange_blocks {A} (R : A -> list Metric -> Prop) (l : list A) (body : A -> M unit) :
  (forall x w, exists b, mChan (snd (body x w)) = mChan w ++ b /\ R x b) ->
  forall w, exists bs,
    mChan (snd (forRange l body w)) = mChan w ++ List.concat bs /\ Forall2 R l bs.
Proof.
  intros H. induction l as [|x rest IH]; intros w.
  - exists []. simpl. rewrite app_nil_r. auto.
  - rewrite forRange_cons.
    destruct (H x w) as (b & Eb & Rb).
    destruct (IH (snd (body x w))) as (bs & Ebs & Rbs).
    exists (b :: bs). split; [|constructor; assumption].
    rewrite Ebs, Eb. simpl. rewrite app_assoc. reflexivity.
Qed.

Lemma snd_bind_const {A B} (m : M A) (k : M B) (w : World) :
  snd (bind m (fun _ => k) w) = snd (k (snd (m w))).
Proof. unfold bind. destruct (m w). reflexivity. Qed.

Lemma collectLeaves_blocks (c : NetatmoCollector) (data : DeviceCollection) (w : World) :
  exists devBlocks,
    mChan (snd (collectLeaves c data w)) = mChan w ++ List.concat devBlocks /\
    Forall2 deviceBlocks (Devices data) devBlocks.
Proof.
  unfold collectLeaves. apply forRange_blocks. intros dev w1. cbv zeta.
  rewrite snd_bind_const.
  destruct (collectData_block c dev (StationName dev) w1) as (own & Eown & Rown).
  destruct (forRange_blocks (fun module b => leafBlock module (StationName dev) b)
              (LinkedModules dev)
              (fun module => collectData c module (StationName dev))
              (fun module w2 => collectData_block c module (StationName dev) w2)
              (snd (collectData c dev (StationName dev) w1)))
    as (mods & Emods & Rmods).
  exists (own ++ List.concat mods). split.
  - rewrite Emods, Eown, app_assoc. reflexivity.
  - exists own, mods. auto.
Qed.

Lemma Forall_optMetric {A} (P : Metric -> Prop) (p : option A) (f : A -> Metric) :
  (forall x, P (f x)) -> Forall P (optMetric p f).
Proof. intros H. destruct p; simpl; auto. Qed.

Lemma freshLeafMetrics_labels (leaf : Device) (st : string) (lm : Z) :
  Forall (fun m => variableLabels (desc m) = varLabels /\
                   labelValues m = [moduleName_of leaf; st])
         (freshLeafMetrics leaf st lm).
Proof.
  unfold freshLeafMetrics. cbv zeta.
  constructor; [split; reflexivity|].
  repeat (apply Forall_app; split;
          [apply Forall_optMetric; intros; split; reflexivity|]).
  constructor; [split; reflexivity|constructor].
Qed.

(** C3, as the code has it. After the five self-health metrics a scrape
    sends, for every main device of the cached snapshot in turn, the block
    of the main device and then the block of each of its linked modules.
    The block of a leaf is empty or holds the metrics of that leaf's own
    readings, and every metric of it has the [module] label of that leaf,
    its module name or ["id-"] followed by its identifier when the name is
    empty, and as [station] label the [StationName] field of the main
    device, a field of its own that need not equal the main device's module
    name. *)
Theorem labels_are_module_name_and_StationName (c : NetatmoCollector) (w : World) :
  (exists rest,
     mChan (snd (Collect c w)) = mChan w ++ selfHealthMetrics c ++ rest /\
     match cachedData c with
     | None => rest = []
     | Some data =>
       exists devBlocks,
         rest = List.concat devBlocks /\
         Forall2
           (fun dev block =>
              exists own mods,
                block = own ++ List.concat mods /\
                leafBlock dev (StationName dev) own /\
                Forall2 (fun module b => leafBlock module (StationName dev) b)
                        (LinkedModules dev) mods)
           (Devices data) devBlocks
     end) /\
  (forall (leaf : Device) (stationName : string) (lm : Z),
     Forall (fun m =>
               variableLabels (desc m) = ["module"; "station"]%string /\
               labelValues m
               = [ if String.eqb (ModuleName leaf) ""
                   then ("id-" ++ ID leaf)%string else ModuleName leaf;
                   stationName ])
            (freshLeafMetrics leaf stationName lm)).
Proof.
  split.
  - rewrite Collect_leaves.
    destruct (cachedData c) as [data|]; simpl ifPresent.
    + destruct (collectLeaves_blocks c data (emit (selfHealthMetrics c) (tick w)))
        as (devBlocks & E & F).
      exists (List.concat devBlocks). split.
      * rewrite E. simpl mChan. rewrite <- app_assoc. reflexivity.
      * exists devBlocks. split; [reflexivity|exact F].
    + exists []. split; [|reflexivity]. rewrite app_nil_r. reflexivity.
  - intros leaf stationName lm. exact (freshLeafMetrics_labels leaf stationName lm).
Qed.
